(** * gradio.components.highlighted_textbox

    A shallow embedding of the text-processing core of the
    [HighlightedTextbox] component: [postprocess] (span expansion and the
    combine-adjacent pass), [tokenize] and [get_interpretation_scores],
    together with the Python built-ins they rest on (string slicing,
    [str.split], [str.join], [sorted], [list.pop], [zip]). *)

From Stdlib Require Import ZArith List Lia Bool Arith Permutation Sorted.
From Stdlib Require Import Strings.String Strings.Ascii.
From Stdlib Require Import Numbers.DecimalString.
Import ListNotations.

Set Implicit Arguments.

Open Scope string_scope.
Open Scope list_scope.

(** ** Exceptions and fallible computations *)

Inductive exn : Type :=
| ValueError (msg : string)
| KeyError (key : string)
| IndexError (msg : string).

Inductive result (A : Type) : Type :=
| Ok (a : A)
| Raise (e : exn).

Arguments Ok {A} a.
Arguments Raise {A} e.

Definition bind {A B : Type} (m : result A) (k : A -> result B) : result B :=
  match m with
  | Ok a => k a
  | Raise e => Raise e
  end.

Notation "x <- m ;; k" := (bind m (fun x => k))
  (at level 61, m at next level, right associativity).

(** [try: m except KeyError: handler]. *)
Definition except_KeyError {A : Type} (m : result A) (handler : string -> result A)
  : result A :=
  match m with
  | Raise (KeyError key) => handler key
  | _ => m
  end.

(** [for i in items: acc = body i acc], stopping at the first exception. *)
Fixpoint for_each {A S : Type} (items : list A) (body : A -> S -> result S)
  (acc : S) : result S :=
  match items with
  | [] => Ok acc
  | i :: rest => acc' <- body i acc ;; for_each rest body acc'
  end.

(** [range(n)]. *)
Definition range (n : nat) : list nat := seq 0 n.

(** ** Python strings *)

Module PyStr.

(** Truthiness of a string: [not text] holds of the empty string only. *)
Definition is_empty (s : string) : bool :=
  match s with
  | EmptyString => true
  | String _ _ => false
  end.

(** A slice bound is brought into [[0, len]]: a negative bound counts
    from the end, and what still falls outside is clamped. *)
Definition adjust_index (len i : Z) : Z :=
  if (i <? 0)%Z
  then (if (i + len <? 0)%Z then 0%Z else (i + len)%Z)
  else (if (len <=? i)%Z then len else i).

(** [s[lo:hi]] for integer or omitted bounds; it never raises. *)
Definition slice (s : string) (lo hi : option Z) : string :=
  let len := Z.of_nat (String.length s) in
  let a := match lo with None => 0%Z | Some i => adjust_index len i end in
  let b := match hi with None => len | Some j => adjust_index len j end in
  if (a <? b)%Z then substring (Z.to_nat a) (Z.to_nat (b - a)) s
  else EmptyString.

(** [sep.join(parts)]. *)
Fixpoint join (sep : string) (parts : list string) : string :=
  match parts with
  | [] => EmptyString
  | [p] => p
  | p :: rest => p ++ sep ++ join sep rest
  end.

(** [s.startswith(p)]. *)
Fixpoint startswith (p s : string) : bool :=
  match p, s with
  | EmptyString, _ => true
  | String _ _, EmptyString => false
  | String a p', String b s' => Ascii.eqb a b && startswith p' s'
  end.

(** The scan behind [str.split(sep)] for a non-empty [sep]: walk the
    string left to right; where [sep] starts, close the current token and
    step over the separator ([skip] counts the characters of it still to
    step over); elsewhere the character joins the current token, which is
    the head of the result. *)
Fixpoint split_scan (sep : string) (skip : nat) (s : string) : list string :=
  match s with
  | EmptyString => [EmptyString]
  | String c s' =>
      match skip with
      | S k => split_scan sep k s'
      | O =>
          if startswith sep s
          then EmptyString :: split_scan sep (String.length sep - 1) s'
          else match split_scan sep 0 s' with
               | tok :: toks => String c tok :: toks
               | [] => [String c EmptyString]
               end
      end
  end.

(** [s.split(sep)]: an empty separator is refused. *)
Definition split (s sep : string) : result (list string) :=
  if is_empty sep then Raise (ValueError "empty separator")
  else Ok (split_scan sep 0 s).

End PyStr.

(** ** Python lists *)

Module PyList.

(** [l.pop(index)] for [0 <= index]: the list without that element. *)
Fixpoint pop {A : Type} (l : list A) (index : nat) : result (list A) :=
  match l, index with
  | [], _ => Raise (IndexError "pop index out of range")
  | _ :: l', O => Ok l'
  | x :: l', S i => l'' <- pop l' i ;; Ok (x :: l'')
  end.

(** [l[index] = v] for [0 <= index]. *)
Fixpoint setitem {A : Type} (l : list A) (index : nat) (v : A)
  : result (list A) :=
  match l, index with
  | [], _ => Raise (IndexError "list assignment index out of range")
  | _ :: l', O => Ok (v :: l')
  | x :: l', S i => l'' <- setitem l' i v ;; Ok (x :: l'')
  end.

(** [sorted(l, key=key)] with integer keys.  The built-in sort is stable,
    which fixes its result; insertion from the right computes it. *)
Fixpoint insert_by {A : Type} (key : A -> Z) (x : A) (l : list A) : list A :=
  match l with
  | [] => [x]
  | y :: l' =>
      if (key x <=? key y)%Z then x :: l else y :: insert_by key x l'
  end.

Fixpoint sorted {A : Type} (key : A -> Z) (l : list A) : list A :=
  match l with
  | [] => []
  | x :: l' => insert_by key x (sorted key l')
  end.

End PyList.

(** ** The component *)

(** The attributes of [self] that the methods below read. *)
Record HighlightedTextbox : Type := {
  combine_adjacent : bool;
  adjacent_separator : string;
  interpretation_separator : string;
  interpretation_replacement : option string
}.

Section Component.

(** Numbers (labels and scores may be floats) are kept abstract: [num_eqb]
    is Python's [==] on them, of which nothing is assumed, and [num_zero]
    is the literal [0]. *)
Variable num : Type.
Variable num_eqb : num -> num -> bool.
Variable num_zero : num.

(** A label: [str | float | None]. *)
Inductive label : Type :=
| LNone
| LStr (s : string)
| LNum (x : num).

(** [a == b] on labels. *)
Definition label_eqb (a b : label) : bool :=
  match a, b with
  | LNone, LNone => true
  | LStr s, LStr t => String.eqb s t
  | LNum x, LNum y => num_eqb x y
  | _, _ => false
  end.

Definition segment : Type := (string * label)%type.

(** One entry of ["highlights"].  [highlight_type] is what
    [entity.get("highlight_type")] returns: [LNone] when the key is absent. *)
Record entity : Type := {
  highlight_type : label;
  start : Z;
  end_ : Z
}.

(** The dictionary form of the value, as far as [postprocess] reads it:
    a key that is absent is [None]. *)
Record value_dict : Type := {
  dict_text : option string;
  dict_highlights : option (list entity)
}.

Inductive value : Type :=
| Segments (l : list segment)
| Dict (d : value_dict).

Definition getitem_text (y : value_dict) : result string :=
  match dict_text y with
  | Some text => Ok text
  | None => Raise (KeyError "text")
  end.

Definition getitem_highlights (y : value_dict) : result (list entity) :=
  match dict_highlights y with
  | Some highlights => Ok highlights
  | None => Raise (KeyError "highlights")
  end.

Definition expected_keys_message : string :=
  "Expected a dictionary with keys 'text' and 'highlights' for the value of the HighlightedText component.".

(** Body of [for entity in entities], on the pair [(list_format, index)]. *)
Definition expand_step (text : string) (st : list segment * Z) (e : entity)
  : list segment * Z :=
  let '(list_format, index) := st in
  let list_format :=
    list_format ++ [(PyStr.slice text (Some index) (Some (start e)), LNone)] in
  let list_format :=
    list_format
      ++ [(PyStr.slice text (Some (start e)) (Some (end_ e)), highlight_type e)] in
  (list_format, end_ e).

(** The dictionary branch of [postprocess]. *)
Definition expand_dict (y : value_dict) : result (list segment) :=
  p <- except_KeyError
         (text <- getitem_text y ;;
          highlights <- getitem_highlights y ;;
          Ok (text, highlights))
         (fun _ => Raise (ValueError expected_keys_message)) ;;
  let '(text, highlights) := p in
  if Nat.eqb (List.length highlights) 0
  then Ok [(text, LNone)]
  else
    let entities := PyList.sorted start highlights in
    let '(list_format, index) :=
      fold_left (expand_step text) entities ([], 0%Z) in
    Ok (list_format ++ [(PyStr.slice text (Some index) None, LNone)]).

(** Body of [for text, category in y] in the combine-adjacent pass, on the
    pair of [output] and the running segment ([None] before the first). *)
Definition combine_step (sep : string)
  (st : list segment * option segment) (item : segment)
  : list segment * option segment :=
  let '(output, running) := st in
  let '(text, category) := item in
  match running with
  | None => (output, Some (text, category))
  | Some (running_text, running_category) =>
      if label_eqb category running_category
      then (output, Some ((running_text ++ (sep ++ text))%string, running_category))
      else if PyStr.is_empty text
      then (output, running)
      else (output ++ [(running_text, running_category)],
            Some (text, category))
  end.

Definition combine_pass (sep : string) (y : list segment) : list segment :=
  let '(output, running) := fold_left (combine_step sep) y ([], None) in
  match running with
  | None => output
  | Some r => output ++ [r]
  end.

Definition postprocess (self : HighlightedTextbox) (y : option value)
  : result (option (list segment)) :=
  match y with
  | None => Ok None
  | Some y =>
      y <- match y with
           | Dict d => expand_dict d
           | Segments l => Ok l
           end ;;
      if combine_adjacent self
      then Ok (Some (combine_pass (adjacent_separator self) y))
      else Ok (Some y)
  end.

(** [tokenize]: the tokens, one leave-one-out string per token, and [None]. *)
Definition tokenize (self : HighlightedTextbox) (x : string)
  : result (list string * list string * unit) :=
  tokens <- PyStr.split x (interpretation_separator self) ;;
  leave_one_out_strings <-
    for_each (range (List.length tokens))
      (fun index leave_one_out_strings =>
         leave_one_out_set <-
           match interpretation_replacement self with
           | None => PyList.pop tokens index
           | Some r => PyList.setitem tokens index r
           end ;;
         Ok (leave_one_out_strings
               ++ [PyStr.join (interpretation_separator self)
                     leave_one_out_set]))
      [] ;;
  Ok (tokens, leave_one_out_strings, tt).

(** [get_interpretation_scores]; [x], [neighbors] and [masks] are unused. *)
Definition get_interpretation_scores (self : HighlightedTextbox)
  (scores : list num) (tokens : list string) : list (string * num) :=
  fold_left
    (fun result p =>
       let '(token, score) := p in
       (result ++ [(token, score)])
         ++ [(interpretation_separator self, num_zero)])
    (combine tokens scores) [].

End Component.

Arguments LNone {num}.
Arguments LStr {num} s.
Arguments LNum {num} x.
Arguments highlight_type {num} e.
Arguments start {num} e.
Arguments end_ {num} e.
Arguments dict_text {num} v.
Arguments dict_highlights {num} v.

(** ** Highlights that may lack a key *)

Section HighlightDicts.

Variable num : Type.
Variable num_eqb : num -> num -> bool.

(** One entry of ["highlights"] as the dictionary it is: the value under
    ["start"] and under ["end"], [None] for an absent key, and what
    [entity.get("highlight_type")] returns. *)
Record highlight_dict : Type := {
  get_highlight_type : label num;
  lookup_start : option Z;
  lookup_end : option Z
}.

(** [entity["start"]] and [entity["end"]]. *)
Definition getitem_start (entity : highlight_dict) : result Z :=
  match lookup_start entity with
  | Some v => Ok v
  | None => Raise (KeyError "start")
  end.

Definition getitem_end (entity : highlight_dict) : result Z :=
  match lookup_end entity with
  | Some v => Ok v
  | None => Raise (KeyError "end")
  end.

(** [sorted(highlights, key=lambda x: x["start"])]: the key of every
    element is computed first, in list order, then the elements are sorted
    by their keys. *)
Definition sorted_by_start (highlights : list highlight_dict)
  : result (list highlight_dict) :=
  keyed <- for_each highlights
             (fun x keyed => k <- getitem_start x ;; Ok (keyed ++ [(k, x)]))
             [] ;;
  Ok (map snd (PyList.sorted fst keyed)).

(** Body of [for entity in entities], with its four look-ups in order. *)
Definition expand_step_dict (text : string) (entity : highlight_dict)
  (st : list (segment num) * Z) : result (list (segment num) * Z) :=
  let '(list_format, index) := st in
  s <- getitem_start entity ;;
  let list_format :=
    list_format ++ [(PyStr.slice text (Some index) (Some s), LNone)] in
  let highlight_type := get_highlight_type entity in
  s' <- getitem_start entity ;;
  e <- getitem_end entity ;;
  let list_format :=
    list_format ++ [(PyStr.slice text (Some s') (Some e), highlight_type)] in
  index' <- getitem_end entity ;;
  Ok (list_format, index').

(** [postprocess] on a dictionary, given the values under ["text"] and
    ["highlights"] ([None] for an absent key).  Only the look-ups of the two
    top-level keys stand inside the [try]. *)
Definition postprocess_dict (self : HighlightedTextbox)
  (text : option string) (highlights : option (list highlight_dict))
  : result (option (list (segment num))) :=
  p <- except_KeyError
         (text <- match text with
                  | Some text => Ok text
                  | None => Raise (KeyError "text")
                  end ;;
          highlights <- match highlights with
                        | Some highlights => Ok highlights
                        | None => Raise (KeyError "highlights")
                        end ;;
          Ok (text, highlights))
         (fun _ => Raise (ValueError expected_keys_message)) ;;
  let '(text, highlights) := p in
  y <- (if Nat.eqb (List.length highlights) 0
        then Ok [(text, LNone)]
        else
          entities <- sorted_by_start highlights ;;
          st <- for_each entities (expand_step_dict text) ([], 0%Z) ;;
          let '(list_format, index) := st in
          Ok (list_format ++ [(PyStr.slice text (Some index) None, LNone)])) ;;
  if combine_adjacent self
  then Ok (Some (combine_pass num_eqb (adjacent_separator self) y))
  else Ok (Some y).

(** The dictionary of a span that has both keys, and back. *)
Definition dict_of_entity (e : entity num) : highlight_dict :=
  {| get_highlight_type := highlight_type e;
     lookup_start := Some (start e);
     lookup_end := Some (end_ e) |}.

Definition entity_of_dict (h : highlight_dict) : entity num :=
  {| highlight_type := get_highlight_type h;
     start := match lookup_start h with Some v => v | None => 0%Z end;
     end_ := match lookup_end h with Some v => v | None => 0%Z end |}.

(** The entry has both ["start"] and ["end"]. *)
Definition has_start_and_end (h : highlight_dict) : Prop :=
  lookup_start h <> None /\ lookup_end h <> None.

End HighlightDicts.

Arguments get_highlight_type {num} h.
Arguments lookup_start {num} h.
Arguments lookup_end {num} h.

(** ** The interpretation parameters and masked inputs *)

(** [set_interpret_parameters(separator, replacement)]: [self] with the two
    interpretation attributes set. *)
Definition set_interpret_parameters (self : HighlightedTextbox)
  (separator : string) (replacement : option string) : HighlightedTextbox :=
  {| combine_adjacent := combine_adjacent self;
     adjacent_separator := adjacent_separator self;
     interpretation_separator := separator;
     interpretation_replacement := replacement |}.

Module Numpy.

(** A string read back from a fixed-width unicode array: the padding is
    made of NUL characters, so the NULs a string ends in are lost. *)
Fixpoint rstrip_nul (s : string) : string :=
  match s with
  | EmptyString => EmptyString
  | String c s' =>
      match rstrip_nul s' with
      | EmptyString =>
          if Ascii.eqb c Ascii.zero then EmptyString
          else String c EmptyString
      | r => String c r
      end
  end.

(** [np.array(tokens)] for a list of strings, as the list of its elements. *)
Definition array_of_str (tokens : list string) : list string :=
  map rstrip_nul tokens.

(** [np.array(v, dtype=bool)] for a list of integers: non-zero is [True]. *)
Definition array_of_bool (v : list Z) : list bool :=
  map (fun z => negb (z =? 0)%Z) v.

(** The elements of [a] at which [mask] is [True], in order. *)
Fixpoint select {A : Type} (a : list A) (mask : list bool) : list A :=
  match a, mask with
  | x :: a', b :: mask' => if b then x :: select a' mask' else select a' mask'
  | _, _ => []
  end.

(** A size in decimal. *)
Definition decimal (n : nat) : string :=
  NilEmpty.string_of_uint (Nat.to_uint n).

(** The message of a boolean index of the wrong length, in the wording of
    recent numpy releases. *)
Definition mismatch_message (axis_size mask_size : nat) : string :=
  ("boolean index did not match indexed array along axis 0; size of axis is "
   ++ decimal axis_size
   ++ " but size of corresponding boolean axis is "
   ++ decimal mask_size)%string.

(** [a[mask]] for a one-dimensional [a] and a boolean [mask].  The length
    of a non-empty mask is checked against that of [a]; an empty mask is
    not checked and selects nothing. *)
Definition boolean_index {A : Type} (a : list A) (mask : list bool)
  : result (list A) :=
  if Nat.eqb (List.length mask) 0
  then Ok []
  else if Nat.eqb (List.length mask) (List.length a)
  then Ok (select a mask)
  else Raise (IndexError (mismatch_message (List.length a) (List.length mask))).

End Numpy.

(** [get_masked_inputs]. *)
Definition get_masked_inputs (self : HighlightedTextbox)
  (tokens : list string) (binary_mask_matrix : list (list Z))
  : result (list string) :=
  for_each binary_mask_matrix
    (fun binary_mask_vector masked_inputs =>
       masked_input <-
         Numpy.boolean_index (Numpy.array_of_str tokens)
           (Numpy.array_of_bool binary_mask_vector) ;;
       Ok (masked_inputs
             ++ [PyStr.join (interpretation_separator self) masked_input]))
    [].

(** The mask row that keeps every token but the one at [i]. *)
Definition leave_one_out_row (n i : nat) : list Z :=
  map (fun j => if Nat.eqb j i then 0%Z else 1%Z) (seq 0 n).

(** One such row per token. *)
Definition leave_one_out_matrix (n : nat) : list (list Z) :=
  map (leave_one_out_row n) (seq 0 n).

(** ** Vocabulary of the properties *)

(** The texts of a segment list, concatenated in order. *)
Definition segments_text {num : Type} (l : list (segment num)) : string :=
  fold_right (fun seg acc => (fst seg ++ acc)%string) EmptyString l.

(** [0 <= start <= end <= len(text)]. *)
Definition in_bounds {num : Type} (text : string) (e : entity num) : Prop :=
  (0 <= start e /\ start e <= end_ e
   /\ end_ e <= Z.of_nat (String.length text))%Z.

(** Two half-open spans share no position: one ends where or before the
    other starts. *)
Definition non_overlapping {num : Type} (a b : entity num) : Prop :=
  (end_ a <= start b \/ end_ b <= start a)%Z.

(** Of two spans that start at the same place, [a] (the one listed first)
    is empty. *)
Definition first_empty_on_tie {num : Type} (a b : entity num) : Prop :=
  start a = start b -> end_ a = start a.

(** [a] lies wholly before [b]. *)
Definition ends_before {num : Type} (a b : entity num) : Prop :=
  (end_ a <= start b)%Z.

(** The segments that the expansion loop and the statement after it append,
    given by recursion on the entities still to walk. *)
Fixpoint expand_from {num : Type} (text : string) (index : Z)
  (entities : list (entity num)) : list (segment num) :=
  match entities with
  | [] => [(PyStr.slice text (Some index) None, LNone)]
  | e :: rest =>
      (PyStr.slice text (Some index) (Some (start e)), LNone)
        :: (PyStr.slice text (Some (start e)) (Some (end_ e)), highlight_type e)
        :: expand_from text (end_ e) rest
  end.

(** The combine-adjacent pass once a running segment is set, by recursion
    on the items still to read. *)
Fixpoint combine_from {num : Type} (num_eqb : num -> num -> bool)
  (sep : string) (running : segment num) (y : list (segment num))
  : list (segment num) :=
  match y with
  | [] => [running]
  | (text, category) :: rest =>
      if label_eqb num_eqb category (snd running)
      then combine_from num_eqb sep
             ((fst running ++ (sep ++ text))%string, snd running) rest
      else if PyStr.is_empty text
      then combine_from num_eqb sep running rest
      else running :: combine_from num_eqb sep (text, category) rest
  end.

(** Every segment has a non-empty text and a label that does not compare
    equal to the label just before it ([prev] for the first). *)
Fixpoint settled {num : Type} (num_eqb : num -> num -> bool)
  (prev : label num) (l : list (segment num)) : Prop :=
  match l with
  | [] => True
  | (text, category) :: rest =>
      label_eqb num_eqb category prev = false
      /\ PyStr.is_empty text = false
      /\ settled num_eqb category rest
  end.

(** [key] occurs in [msg]. *)
Definition mentions (msg key : string) : Prop :=
  exists pre post : string, msg = (pre ++ key ++ post)%string.

(** [sep] starts at no position of [s] before position [n]. *)
Fixpoint no_start_before (sep : string) (n : nat) (s : string) : Prop :=
  match n with
  | O => True
  | S n' =>
      PyStr.startswith sep s = false /\
      match s with
      | EmptyString => True
      | String _ s' => no_start_before sep n' s'
      end
  end.

(** Plain splitting of a string on a separator, as a relation: the first
    token runs up to the leftmost place where the separator starts, the rest
    of the string after that separator is split in the same way, and a
    string in which the separator starts nowhere is a single token. *)
Inductive plain_split (sep : string) : string -> list string -> Prop :=
| plain_split_last (s : string) :
    no_start_before sep (S (String.length s)) s ->
    plain_split sep s [s]
| plain_split_cut (tok rest : string) (toks : list string) :
    no_start_before sep (String.length tok) (tok ++ sep ++ rest)%string ->
    plain_split sep rest toks ->
    plain_split sep (tok ++ sep ++ rest)%string (tok :: toks).

(** The list without its element at [i]; the list with [r] at [i]. *)
Definition without_index {A : Type} (i : nat) (l : list A) : list A :=
  firstn i l ++ skipn (S i) l.

Definition with_index_replaced {A : Type} (i : nat) (r : A) (l : list A)
  : list A :=
  firstn i l ++ r :: skipn (S i) l.

(** The leave-one-out string of token [i]: the tokens with [i] removed
    (no replacement) or replaced, joined again. *)
Definition masked_variant (sep : string) (replacement : option string)
  (tokens : list string) (i : nat) : string :=
  PyStr.join sep
    match replacement with
    | None => without_index i tokens
    | Some r => with_index_replaced i r tokens
    end.

(** What [tokenize] is to return on [x]. *)
Definition tokenize_returns (self : HighlightedTextbox) (x : string) : Prop :=
  exists tokens masked : list string,
    tokenize self x = Ok (tokens, masked, tt)
    /\ plain_split (interpretation_separator self) x tokens
    /\ List.length masked = List.length tokens
    /\ forall i : nat,
         i < List.length tokens ->
         nth_error masked i
         = Some (masked_variant (interpretation_separator self)
                   (interpretation_replacement self) tokens i).

(** The dictionary [{"text": text, "highlights": highlights}]. *)
Definition structured {num : Type} (text : string)
  (highlights : list (entity num)) : value num :=
  Dict {| dict_text := Some text; dict_highlights := Some highlights |}.

(** [postprocess] returns segments whose texts spell [text]. *)
Definition reproduces_text {num : Type} (num_eqb : num -> num -> bool)
  (self : HighlightedTextbox) (text : string) (highlights : list (entity num))
  : Prop :=
  exists segs : list (segment num),
    postprocess num_eqb self (Some (structured text highlights))
    = Ok (Some segs)
    /\ segments_text segs = text.

(** The first components of a list of pairs, concatenated in order. *)
Definition pairs_text {B : Type} (l : list (string * B)) : string :=
  fold_right (fun p acc => (fst p ++ acc)%string) EmptyString l.

(** Joining a pair wherever it stands: for two neighbours of [y] of which
    the second label compares equal to the first, the result for [y] is the
    result for [y] with the two made one, their texts joined by
    [adjacent_separator]. *)
Definition joins_adjacent_pairs {num : Type} (num_eqb : num -> num -> bool)
  (self : HighlightedTextbox) (y : list (segment num)) : Prop :=
  forall (pre post : list (segment num)) (t1 t2 : string) (c1 c2 : label num),
    y = pre ++ (t1, c1) :: (t2, c2) :: post ->
    label_eqb num_eqb c2 c1 = true ->
    postprocess num_eqb self (Some (Segments y))
    = postprocess num_eqb self
        (Some (Segments
                 (pre ++ ((t1 ++ adjacent_separator self ++ t2)%string, c1)
                         :: post))).

(** ** Sample inputs *)

(** The component as constructed with its default arguments. *)
Definition default_textbox : HighlightedTextbox :=
  {| combine_adjacent := false;
     adjacent_separator := EmptyString;
     interpretation_separator := " ";
     interpretation_replacement := None |}.

Definition combining_textbox : HighlightedTextbox :=
  {| combine_adjacent := true;
     adjacent_separator := EmptyString;
     interpretation_separator := " ";
     interpretation_replacement := None |}.

Definition replacing_textbox : HighlightedTextbox :=
  {| combine_adjacent := false;
     adjacent_separator := EmptyString;
     interpretation_separator := " ";
     interpretation_replacement := Some "X" |}.

(** [set_interpret_parameters(separator="")]. *)
Definition empty_separator_textbox : HighlightedTextbox :=
  {| combine_adjacent := false;
     adjacent_separator := EmptyString;
     interpretation_separator := EmptyString;
     interpretation_replacement := None |}.

Definition span (l : label Z) (a b : Z) : entity Z :=
  {| highlight_type := l; start := a; end_ := b |}.

Definition cat_spans : list (entity Z) :=
  [span (LStr "ANIMAL") 4 7; span LNone 11 11].

(** A span over [cd] listed before an empty span at the same start. *)
Definition tie_spans : list (entity Z) :=
  [span (LStr "A") 2 4; span (LStr "B") 2 2].

Definition overlapping_spans : list (entity Z) :=
  [span (LStr "A") 2 4; span (LStr "B") (-3) 1; span (LNum 7%Z) 1 9].

Definition sample_segments : list (segment Z) :=
  [("a", LStr "A"); ("b", LStr "A"); (EmptyString, LNone); ("c", LStr "B");
   ("d", LNone); ("e", LNone)].

Definition dash_textbox : HighlightedTextbox :=
  {| combine_adjacent := true;
     adjacent_separator := "-";
     interpretation_separator := " ";
     interpretation_replacement := None |}.

(** An empty segment and its neighbour of the same label, after a segment
    of another label. *)
Definition dropped_pair_segments : list (segment Z) :=
  [("x", LStr "B"); (EmptyString, LStr "A"); ("a", LStr "A")].

(** A highlight without ["start"], and one with both keys. *)
Definition no_start_highlight : highlight_dict Z :=
  {| get_highlight_type := LStr "A";
     lookup_start := None;
     lookup_end := Some 2%Z |}.

Definition overlapping_highlights : list (highlight_dict Z) :=
  map (@dict_of_entity Z) overlapping_spans.

(** Segments that all carry the label ["A"]. *)
Definition one_label_tail : list (segment Z) :=
  [("b", LStr "A"); (EmptyString, LStr "A"); ("c", LStr "A")].

Definition two_spans : list (entity Z) :=
  [span (LStr "ANIMAL") 4 7; span (LStr "VERB") 8 11].

Definition two_spans_swapped : list (entity Z) :=
  [span (LStr "VERB") 8 11; span (LStr "ANIMAL") 4 7].

Definition abc_tokens : list string := ["a"; "b"; "c"].

Definition abc_masked : list string := ["b c"; "a c"; "a b"].

(** ** Strings: slicing *)

Section SliceFacts.

Lemma append_empty_r (s : string) : (s ++ EmptyString)%string = s.
Proof.
  induction s as [|c s IH]; simpl; [reflexivity | now rewrite IH].
Qed.

Lemma append_assoc (a b c : string) :
  ((a ++ b) ++ c)%string = (a ++ (b ++ c))%string.
Proof.
  induction a as [|x a IH]; simpl; [reflexivity | now rewrite IH].
Qed.

Lemma substring_zero_length (s : string) (n : nat) :
  substring n 0 s = EmptyString.
Proof.
  revert n; induction s as [|c s IH]; intros [|n]; simpl; auto.
Qed.

Lemma substring_whole (s : string) : substring 0 (String.length s) s = s.
Proof.
  induction s as [|c s IH]; simpl; [reflexivity | now rewrite IH].
Qed.

(** A substring is cut in two at any inner point. *)
Lemma substring_cut (s : string) (n m1 m2 : nat) :
  substring n (m1 + m2) s
  = (substring n m1 s ++ substring (n + m1) m2 s)%string.
Proof.
  revert n m1; induction s as [|c s IH]; intros n m1.
  - destruct n, m1, m2; reflexivity.
  - destruct n as [|n].
    + destruct m1 as [|m1]; simpl.
      * destruct m2; reflexivity.
      * now rewrite (IH 0 m1).
    + simpl. apply IH.
Qed.

Lemma adjust_index_id (len i : Z) :
  (0 <= i <= len)%Z -> PyStr.adjust_index len i = i.
Proof.
  intros H. unfold PyStr.adjust_index.
  destruct (Z.ltb_spec i 0); [lia|].
  destruct (Z.leb_spec len i); lia.
Qed.

(** [s[a:b] + s[b:] = s[a:]] when [0 <= a <= b <= len(s)]. *)
Lemma slice_then_rest (s : string) (a b : Z) :
  (0 <= a <= b)%Z -> (b <= Z.of_nat (String.length s))%Z ->
  (PyStr.slice s (Some a) (Some b) ++ PyStr.slice s (Some b) None)%string
  = PyStr.slice s (Some a) None.
Proof.
  intros Hab Hb. unfold PyStr.slice.
  set (len := Z.of_nat (String.length s)) in *.
  rewrite !adjust_index_id by lia.
  destruct (Z.ltb_spec a b) as [Hlt|Hge].
  - destruct (Z.ltb_spec a len) as [_|Hc]; [|lia].
    replace (Z.to_nat (len - a))
      with (Z.to_nat (b - a) + Z.to_nat (len - b)) by lia.
    rewrite substring_cut.
    replace (Z.to_nat a + Z.to_nat (b - a)) with (Z.to_nat b) by lia.
    destruct (Z.ltb_spec b len) as [_|Hd]; [reflexivity|].
    replace (Z.to_nat (len - b)) with 0 by lia.
    now rewrite substring_zero_length.
  - assert (a = b) by lia; subst b. reflexivity.
Qed.

(** [s[0:] = s]. *)
Lemma slice_from_zero (s : string) : PyStr.slice s (Some 0%Z) None = s.
Proof.
  unfold PyStr.slice. rewrite adjust_index_id by lia.
  destruct (Z.ltb_spec 0 (Z.of_nat (String.length s))) as [H|H].
  - rewrite Z.sub_0_r, Nat2Z.id. apply substring_whole.
  - destruct s; [reflexivity | simpl in H; lia].
Qed.

End SliceFacts.

(** ** Lists: the stable sort *)

Section SortedFacts.

Variable A : Type.
Variable key : A -> Z.

Lemma insert_by_perm (x : A) (l : list A) :
  Permutation (x :: l) (PyList.insert_by key x l).
Proof.
  induction l as [|y l IH]; simpl; [apply Permutation_refl|].
  destruct (key x <=? key y)%Z; [apply Permutation_refl|].
  eapply perm_trans; [apply perm_swap | now apply perm_skip].
Qed.

Lemma sorted_perm (l : list A) : Permutation l (PyList.sorted key l).
Proof.
  induction l as [|x l IH]; simpl; [constructor|].
  eapply perm_trans; [apply perm_skip, IH | apply insert_by_perm].
Qed.

Lemma sorted_length (l : list A) :
  List.length (PyList.sorted key l) = List.length l.
Proof. symmetry. apply Permutation_length, sorted_perm. Qed.

Lemma sorted_Forall (Q : A -> Prop) (l : list A) :
  Forall Q l -> Forall Q (PyList.sorted key l).
Proof.
  intros H. eapply Permutation_Forall; [apply sorted_perm | exact H].
Qed.

Lemma insert_by_Forall (Q : A -> Prop) (x : A) (l : list A) :
  Q x -> Forall Q l -> Forall Q (PyList.insert_by key x l).
Proof.
  intros Hx Hl.
  eapply Permutation_Forall; [apply insert_by_perm | now constructor].
Qed.

Definition key_le (a b : A) : Prop := (key a <= key b)%Z.

Lemma insert_by_ascending (x : A) (l : list A) :
  StronglySorted key_le l ->
  StronglySorted key_le (PyList.insert_by key x l).
Proof.
  induction 1 as [|y l Hl IH Hy]; simpl.
  - repeat constructor.
  - destruct (Z.leb_spec (key x) (key y)) as [Hle|Hgt].
    + constructor; [now constructor|].
      constructor; [exact Hle|].
      eapply Forall_impl; [|exact Hy].
      unfold key_le; intros; lia.
    + constructor; [exact IH|].
      apply insert_by_Forall; [unfold key_le; lia | exact Hy].
Qed.

(** The result is ascending in the key. *)
Lemma sorted_ascending (l : list A) :
  StronglySorted key_le (PyList.sorted key l).
Proof.
  induction l as [|x l IH]; simpl;
    [constructor | now apply insert_by_ascending].
Qed.

Definition has_key (k : Z) (a : A) : bool := (key a =? k)%Z.

Lemma insert_by_stable (k : Z) (x : A) (l : list A) :
  StronglySorted key_le l ->
  filter (has_key k) (PyList.insert_by key x l)
  = filter (has_key k) (x :: l).
Proof.
  induction 1 as [|y l Hl IH Hy]; [reflexivity|].
  simpl PyList.insert_by.
  destruct (Z.leb_spec (key x) (key y)) as [Hle|Hgt]; [reflexivity|].
  change (filter (has_key k) (y :: PyList.insert_by key x l))
    with (if has_key k y
          then y :: filter (has_key k) (PyList.insert_by key x l)
          else filter (has_key k) (PyList.insert_by key x l)).
  rewrite IH. simpl. unfold has_key.
  destruct (Z.eqb_spec (key y) k) as [Hy'|Hy'];
    destruct (Z.eqb_spec (key x) k) as [Hx'|Hx']; try reflexivity.
  lia.
Qed.

(** Elements with equal keys keep the order they came in. *)
Lemma sorted_stable (k : Z) (l : list A) :
  filter (has_key k) (PyList.sorted key l) = filter (has_key k) l.
Proof.
  induction l as [|x l IH]; [reflexivity|].
  simpl PyList.sorted.
  rewrite insert_by_stable by apply sorted_ascending.
  simpl. now rewrite IH.
Qed.

End SortedFacts.

(** ** Span expansion *)

Section ExpansionFacts.

Variable num : Type.

(** The loop, started anywhere, appends what [expand_from] lists. *)
Lemma expand_loop (text : string) (entities : list (entity num))
  (list_format : list (segment num)) (index : Z) :
  (let '(out, last) :=
     fold_left (expand_step text) entities (list_format, index) in
   out ++ [(PyStr.slice text (Some last) None, LNone)])
  = list_format ++ expand_from text index entities.
Proof.
  revert list_format index.
  induction entities as [|e rest IH]; intros list_format index; simpl.
  - reflexivity.
  - rewrite IH, <- !app_assoc. reflexivity.
Qed.

Lemma expand_dict_nonempty (text : string) (highlights : list (entity num)) :
  highlights <> [] ->
  expand_dict {| dict_text := Some text; dict_highlights := Some highlights |}
  = Ok (expand_from text 0 (PyList.sorted start highlights)).
Proof.
  intros Hne. unfold expand_dict; simpl.
  destruct highlights as [|h hs]; [congruence|].
  cbn [List.length Nat.eqb].
  pose proof (expand_loop text (PyList.sorted start (h :: hs)) [] 0) as H.
  destruct (fold_left _ _ _) as [out last].
  now rewrite H.
Qed.

Lemma expand_from_length (text : string) (entities : list (entity num)) (index : Z) :
  List.length (expand_from text index entities)
  = 2 * List.length entities + 1.
Proof.
  revert index; induction entities as [|e rest IH]; intros index; simpl;
    [reflexivity | rewrite IH; lia].
Qed.

Lemma expand_from_gap (text : string) (entities : list (entity num)) (index : Z)
  (k : nat) :
  k <= List.length entities ->
  exists gap, nth_error (expand_from text index entities) (2 * k)
              = Some (gap, LNone).
Proof.
  revert index k; induction entities as [|e rest IH]; intros index k Hk.
  - simpl in Hk. assert (k = 0) by lia; subst k. simpl. eauto.
  - destruct k as [|k]; [simpl; eauto|].
    replace (2 * S k) with (S (S (2 * k))) by lia.
    simpl in Hk |- *. apply IH. lia.
Qed.

Lemma expand_from_highlight (text : string) (entities : list (entity num))
  (index : Z) (k : nat) (e : entity num) :
  nth_error entities k = Some e ->
  nth_error (expand_from text index entities) (2 * k + 1)
  = Some (PyStr.slice text (Some (start e)) (Some (end_ e)), highlight_type e).
Proof.
  revert index k; induction entities as [|e' rest IH]; intros index k Hk.
  - destruct k; discriminate.
  - destruct k as [|k].
    + simpl in Hk. injection Hk as ->. reflexivity.
    + replace (2 * S k + 1) with (S (S (2 * k + 1))) by lia.
      simpl in Hk |- *. now apply IH.
Qed.

(** Walking spans that lie one after the other inside the text, the
    segments spell the text from the cursor on. *)
Lemma expand_from_text (text : string) (entities : list (entity num)) (index : Z) :
  (0 <= index)%Z ->
  Forall (in_bounds text) entities ->
  Forall (fun e => (index <= start e)%Z) entities ->
  StronglySorted (@ends_before num) entities ->
  segments_text (expand_from text index entities)
  = PyStr.slice text (Some index) None.
Proof.
  intros Hidx Hin; revert index Hidx.
  induction Hin as [|e rest He Hrest IH]; intros index Hidx Hfrom Hchain.
  - simpl. apply append_empty_r.
  - inversion Hfrom as [|? ? Hstart _]; subst.
    inversion Hchain as [|? ? Hsorted Hbefore]; subst.
    destruct He as (H0 & Hse & Hlen).
    cbn [expand_from segments_text fold_right fst].
    fold (segments_text (expand_from text (end_ e) rest)).
    rewrite IH; [| lia | exact Hbefore | exact Hsorted].
    rewrite slice_then_rest by lia.
    apply slice_then_rest; lia.
Qed.

(** What the claim's spans owe each other, read in sorting order. *)
Definition apart (a b : entity num) : Prop :=
  ((start a <= start b -> end_ a <= start b)
   /\ (start b < start a -> end_ b <= start a))%Z.

Lemma insert_by_chain (x : entity num) (l : list (entity num)) :
  (start x <= end_ x)%Z ->
  Forall (fun e => (start e <= end_ e)%Z) l ->
  Forall (apart x) l ->
  StronglySorted (@ends_before num) l ->
  StronglySorted (@ends_before num) (PyList.insert_by start x l).
Proof.
  intros Hx Hl Hap Hs; revert Hl Hap.
  induction Hs as [|y l Hs IH Hy]; intros Hl Hap; simpl.
  - repeat constructor.
  - inversion Hl as [|? ? Hyb Hlb]; subst.
    inversion Hap as [|? ? Hxy Hxl]; subst.
    destruct (Z.leb_spec (start x) (start y)) as [Hle|Hgt].
    + constructor; [now constructor|].
      constructor; [apply Hxy, Hle|].
      rewrite Forall_forall in Hy, Hxl |- *. intros z Hz.
      specialize (Hy z Hz). specialize (Hxl z Hz).
      unfold ends_before in *. apply Hxl. lia.
    + constructor; [now apply IH|].
      apply insert_by_Forall; [apply Hxy, Hgt | exact Hy].
Qed.

Lemma sorted_chain (l : list (entity num)) :
  Forall (fun e => (start e <= end_ e)%Z) l ->
  ForallOrdPairs apart l ->
  StronglySorted (@ends_before num) (PyList.sorted start l).
Proof.
  intros Hl Hp.
  induction Hp as [|x l Hx Hp IH]; simpl; [constructor|].
  inversion Hl as [|? ? Hxb Hlb]; subst.
  apply insert_by_chain; auto using sorted_Forall.
Qed.

End ExpansionFacts.

(** ** The combine-adjacent pass *)

Section CombineFacts.

Variable num : Type.
Variable num_eqb : num -> num -> bool.

Lemma combine_loop (sep : string) (y : list (segment num))
  (output : list (segment num)) (running : segment num) :
  (let '(out, r) :=
     fold_left (combine_step num_eqb sep) y (output, Some running) in
   match r with
   | None => out
   | Some r => out ++ [r]
   end)
  = output ++ combine_from num_eqb sep running y.
Proof.
  revert output running.
  induction y as [|[text category] rest IH]; intros output [rt rc].
  - reflexivity.
  - cbn [fold_left combine_step combine_from fst snd].
    destruct (label_eqb num_eqb category rc); [apply IH|].
    destruct (PyStr.is_empty text); [apply IH|].
    rewrite IH, <- app_assoc. reflexivity.
Qed.

Lemma combine_pass_nil (sep : string) : combine_pass num_eqb sep [] = [].
Proof. reflexivity. Qed.

Lemma combine_pass_cons (sep : string) (s : segment num)
  (y : list (segment num)) :
  combine_pass num_eqb sep (s :: y) = combine_from num_eqb sep s y.
Proof.
  unfold combine_pass. destruct s as [text category].
  cbn [fold_left combine_step].
  apply (combine_loop sep y [] (text, category)).
Qed.

Lemma is_empty_append (a b : string) :
  PyStr.is_empty a = false -> PyStr.is_empty (a ++ b)%string = false.
Proof. destruct a; [discriminate | reflexivity]. Qed.

(** The running segment keeps its label and, once non-empty, stays so;
    what follows it is settled. *)
Lemma combine_from_settled (sep : string) (y : list (segment num))
  (rt : string) (rc : label num) :
  exists rt' tail,
    combine_from num_eqb sep (rt, rc) y = (rt', rc) :: tail
    /\ settled num_eqb rc tail
    /\ (PyStr.is_empty rt = false -> PyStr.is_empty rt' = false).
Proof.
  revert rt rc.
  induction y as [|[text category] rest IH]; intros rt rc.
  - exists rt, []. repeat split; auto.
  - cbn [combine_from fst snd].
    destruct (label_eqb num_eqb category rc) eqn:Heq.
    + destruct (IH (rt ++ (sep ++ text))%string rc)
        as (rt' & tail & Hrun & Hset & Hne).
      exists rt', tail. repeat split; auto using is_empty_append.
    + destruct (PyStr.is_empty text) eqn:Hemp; [apply IH|].
      destruct (IH text category) as (rt' & tail & Hrun & Hset & Hne).
      exists rt, ((rt', category) :: tail). rewrite Hrun.
      repeat split; auto.
Qed.

(** A settled list passes through unchanged. *)
Lemma combine_from_fixed (sep : string) (l : list (segment num))
  (rt : string) (rc : label num) :
  settled num_eqb rc l ->
  combine_from num_eqb sep (rt, rc) l = (rt, rc) :: l.
Proof.
  revert rt rc.
  induction l as [|[text category] rest IH]; intros rt rc Hset.
  - reflexivity.
  - destruct Hset as (Heq & Hemp & Hrest).
    cbn [combine_from fst snd]. rewrite Heq, Hemp.
    now rewrite IH.
Qed.

Lemma combine_pass_idempotent (sep : string) (y : list (segment num)) :
  combine_pass num_eqb sep (combine_pass num_eqb sep y)
  = combine_pass num_eqb sep y.
Proof.
  destruct y as [|[text category] rest]; [reflexivity|].
  rewrite combine_pass_cons.
  destruct (combine_from_settled sep rest text category)
    as (rt' & tail & Hrun & Hset & _).
  rewrite Hrun, combine_pass_cons.
  now apply combine_from_fixed.
Qed.

Lemma settled_neighbours (prev : label num) (l : list (segment num))
  (i : nat) (a b : segment num) :
  settled num_eqb prev l ->
  nth_error l i = Some a -> nth_error l (S i) = Some b ->
  label_eqb num_eqb (snd b) (snd a) = false.
Proof.
  revert prev i; induction l as [|[t c] rest IH]; intros prev i Hset Ha Hb.
  - destruct i; discriminate.
  - destruct Hset as (_ & _ & Hrest).
    destruct i as [|i].
    + simpl in Ha. injection Ha as <-.
      destruct rest as [|[t' c'] rest']; [discriminate|].
      simpl in Hb. injection Hb as <-. apply Hrest.
    + simpl in Ha, Hb. eapply IH; eauto.
Qed.

Lemma combine_pass_neighbours (sep : string) (y : list (segment num))
  (i : nat) (a b : segment num) :
  nth_error (combine_pass num_eqb sep y) i = Some a ->
  nth_error (combine_pass num_eqb sep y) (S i) = Some b ->
  label_eqb num_eqb (snd b) (snd a) = false.
Proof.
  destruct y as [|[text category] rest].
  - rewrite combine_pass_nil. destruct i; discriminate.
  - rewrite combine_pass_cons.
    destruct (combine_from_settled sep rest text category)
      as (rt' & tail & Hrun & Hset & _).
    rewrite Hrun. intros Ha Hb.
    destruct i as [|i].
    + simpl in Ha. injection Ha as <-.
      destruct tail as [|[t' c'] tail']; [discriminate|].
      simpl in Hb. injection Hb as <-. apply Hset.
    + simpl in Ha, Hb. eapply settled_neighbours; eauto.
Qed.

End CombineFacts.

(** ** Strings: splitting and joining *)

Section SplitFacts.

Lemma startswith_append (p rest : string) :
  PyStr.startswith p (p ++ rest)%string = true.
Proof.
  induction p as [|a p IH]; simpl; [reflexivity|].
  now rewrite Ascii.eqb_refl, IH.
Qed.

Lemma startswith_inv (p s : string) :
  PyStr.startswith p s = true -> exists rest, s = (p ++ rest)%string.
Proof.
  revert s; induction p as [|a p IH]; intros s H.
  - exists s. reflexivity.
  - destruct s as [|b s]; [discriminate|].
    simpl in H. apply andb_true_iff in H as [Hab Hps].
    apply Ascii.eqb_eq in Hab; subst b.
    destruct (IH s Hps) as [rest ->]. now exists rest.
Qed.

Lemma append_length (a b : string) :
  String.length (a ++ b)%string = String.length a + String.length b.
Proof. induction a as [|x a IH]; simpl; [reflexivity | now rewrite IH]. Qed.

Lemma append_inv_head (a b c : string) :
  (a ++ b)%string = (a ++ c)%string -> b = c.
Proof.
  induction a as [|x a IH]; simpl; intros H; [exact H|].
  injection H as H. now apply IH.
Qed.

(** Stepping over the rest of a separator. *)
Lemma split_scan_skip (sep u rest : string) :
  PyStr.split_scan sep (String.length u) (u ++ rest)%string
  = PyStr.split_scan sep 0 rest.
Proof.
  induction u as [|c u IH]; simpl; [|exact IH].
  destruct rest; reflexivity.
Qed.

Lemma plain_split_nonempty (sep s : string) (toks : list string) :
  plain_split sep s toks -> toks <> [].
Proof. destruct 1; discriminate. Qed.

(** Joining the tokens of a plain split gives the string back. *)
Lemma plain_split_join (sep s : string) (toks : list string) :
  plain_split sep s toks -> PyStr.join sep toks = s.
Proof.
  induction 1 as [s _|tok rest toks _ Hrest IH]; [reflexivity|].
  destruct toks as [|t toks'];
    [now apply plain_split_nonempty in Hrest|].
  change (PyStr.join sep (tok :: t :: toks'))
    with (tok ++ sep ++ PyStr.join sep (t :: toks'))%string.
  now rewrite IH.
Qed.

Lemma no_start_before_occurrence (sep tok rest : string) (n : nat) :
  String.length tok < n ->
  ~ no_start_before sep n (tok ++ sep ++ rest)%string.
Proof.
  revert n; induction tok as [|c tok IH]; intros n Hn Hno.
  - destruct n as [|n]; [lia|]. destruct Hno as [Hs _].
    simpl in Hs. now rewrite startswith_append in Hs.
  - destruct n as [|n]; [simpl in Hn; lia|]. destruct Hno as [_ Hno].
    simpl in Hn, Hno. apply (IH n); [lia | exact Hno].
Qed.

(** The leftmost separator is found at one place only. *)
Lemma first_cut_unique (sep tok1 rest1 tok2 rest2 : string) :
  (tok1 ++ sep ++ rest1)%string = (tok2 ++ sep ++ rest2)%string ->
  no_start_before sep (String.length tok1) (tok1 ++ sep ++ rest1)%string ->
  no_start_before sep (String.length tok2) (tok2 ++ sep ++ rest2)%string ->
  tok1 = tok2 /\ rest1 = rest2.
Proof.
  revert tok2; induction tok1 as [|c1 tok1 IH]; intros [|c2 tok2] Heq H1 H2.
  - split; [reflexivity|]. simpl in Heq. now apply append_inv_head in Heq.
  - exfalso. destruct H2 as [Hs _]. rewrite <- Heq in Hs.
    simpl in Hs. now rewrite startswith_append in Hs.
  - exfalso. destruct H1 as [Hs _]. rewrite Heq in Hs.
    simpl in Hs. now rewrite startswith_append in Hs.
  - simpl in Heq. injection Heq as -> Heq.
    destruct H1 as [_ H1], H2 as [_ H2]. simpl in H1, H2.
    destruct (IH tok2 Heq H1 H2) as [-> ->]. now split.
Qed.

(** A string has one plain split. *)
Lemma plain_split_unique (sep s : string) (toks1 toks2 : list string) :
  plain_split sep s toks1 -> plain_split sep s toks2 -> toks1 = toks2.
Proof.
  intros H1; revert toks2.
  induction H1 as [s Hno|tok rest toks Hno Hrest IH]; intros toks2 H2.
  - inversion H2 as [s' _ Hs|tok' rest' toks' _ _ Hs]; subst;
      [reflexivity|].
    exfalso. apply (no_start_before_occurrence sep tok' rest') in Hno;
      [exact Hno | rewrite append_length; lia].
  - inversion H2 as [s' Hno' Hs|tok' rest' toks' Hno' Hrest' Hs]; subst.
    + exfalso. apply (no_start_before_occurrence sep tok rest) in Hno';
        [exact Hno' | rewrite append_length; lia].
    + destruct (first_cut_unique sep tok' rest' tok rest Hs)
        as [-> ->]; auto.
      f_equal. now apply IH.
Qed.

(** The scan computes the plain split. *)
Lemma split_scan_plain (sep s : string) :
  PyStr.is_empty sep = false ->
  plain_split sep s (PyStr.split_scan sep 0 s).
Proof.
  intros Hsep.
  remember (String.length s) as n eqn:Hn. revert s Hn.
  induction n as [n IH] using lt_wf_ind; intros s Hn.
  destruct s as [|c s'].
  - simpl. apply plain_split_last. simpl.
    destruct sep; [discriminate | auto].
  - cbn [PyStr.split_scan].
    destruct (PyStr.startswith sep (String c s')) eqn:Hstart.
    + destruct (startswith_inv _ _ Hstart) as [rest Hs].
      destruct sep as [|a sep']; [discriminate|].
      simpl in Hs. injection Hs as -> ->.
      cbn [String.length]. rewrite Nat.sub_1_r; cbn [Nat.pred].
      rewrite split_scan_skip.
      apply (@plain_split_cut (String a sep') EmptyString rest); [exact I|].
      apply (IH (String.length rest)); [|reflexivity].
      subst n. simpl. rewrite append_length. lia.
    + assert (Hrec : plain_split sep s' (PyStr.split_scan sep 0 s')).
      { apply (IH (String.length s')); [subst n; simpl; lia | reflexivity]. }
      destruct (PyStr.split_scan sep 0 s') as [|tok toks];
        [now apply plain_split_nonempty in Hrec|].
      inversion Hrec as [s0 Hno Hs0|tok0 rest toks0 Hno Hrest Hs0]; subst.
      * apply plain_split_last. split; [exact Hstart | exact Hno].
      * apply (@plain_split_cut sep (String c tok) rest); [|exact Hrest].
        split; [exact Hstart | exact Hno].
Qed.

End SplitFacts.

(** ** Loops over tokens *)

Section LoopFacts.

Lemma pop_in_range (A : Type) (l : list A) (i : nat) :
  i < List.length l -> PyList.pop l i = Ok (without_index i l).
Proof.
  revert i; induction l as [|x l IH]; intros i Hi; [simpl in Hi; lia|].
  destruct i as [|i]; [reflexivity|].
  simpl in Hi |- *. rewrite IH by lia. reflexivity.
Qed.

Lemma setitem_in_range (A : Type) (l : list A) (i : nat) (v : A) :
  i < List.length l ->
  PyList.setitem l i v = Ok (with_index_replaced i v l).
Proof.
  revert i; induction l as [|x l IH]; intros i Hi; [simpl in Hi; lia|].
  destruct i as [|i]; [reflexivity|].
  simpl in Hi |- *. rewrite IH by lia. reflexivity.
Qed.

Lemma nth_error_seq_map (A : Type) (f : nat -> A) (n a i : nat) :
  i < n -> nth_error (map f (seq a n)) i = Some (f (a + i)).
Proof.
  revert a i; induction n as [|n IH]; intros a i Hi; [lia|].
  destruct i as [|i]; simpl; [now rewrite Nat.add_0_r|].
  rewrite IH by lia. f_equal. f_equal. lia.
Qed.

(** The loop of [tokenize] raises nothing and appends one masked variant
    per index. *)
Lemma leave_one_out_loop (sep : string) (replacement : option string)
  (tokens : list string) (k a : nat) (acc : list string) :
  a + k <= List.length tokens ->
  for_each (seq a k)
    (fun index leave_one_out_strings =>
       leave_one_out_set <-
         match replacement with
         | None => PyList.pop tokens index
         | Some r => PyList.setitem tokens index r
         end ;;
       Ok (leave_one_out_strings ++ [PyStr.join sep leave_one_out_set]))
    acc
  = Ok (acc ++ map (masked_variant sep replacement tokens) (seq a k)).
Proof.
  revert a acc; induction k as [|k IH]; intros a acc Hk; simpl.
  - now rewrite app_nil_r.
  - assert (Hone :
      match replacement with
      | None => PyList.pop tokens a
      | Some r => PyList.setitem tokens a r
      end
      = Ok match replacement with
           | None => without_index a tokens
           | Some r => with_index_replaced a r tokens
           end).
    { destruct replacement;
        [apply setitem_in_range | apply pop_in_range]; lia. }
    rewrite Hone. cbn [bind].
    rewrite IH by lia. rewrite <- app_assoc. reflexivity.
Qed.

(** The loop of [get_interpretation_scores] appends two segments per pair. *)
Lemma scores_loop (num : Type) (sep : string) (zero : num)
  (pairs : list (string * num)) (acc : list (string * num)) :
  fold_left
    (fun result p =>
       let '(token, score) := p in
       (result ++ [(token, score)]) ++ [(sep, zero)])
    pairs acc
  = acc ++ flat_map (fun p => [p; (sep, zero)]) pairs.
Proof.
  revert acc; induction pairs as [|[token score] rest IH]; intros acc; simpl.
  - now rewrite app_nil_r.
  - rewrite IH, <- !app_assoc. reflexivity.
Qed.

Lemma flat_map_pairs_length (A : Type) (z : A) (l : list A) :
  List.length (flat_map (fun p => [p; z]) l) = 2 * List.length l.
Proof. induction l as [|x l IH]; simpl; [reflexivity | rewrite IH; lia]. Qed.

Lemma flat_map_pairs_nth (A : Type) (z : A) (l : list A) (i : nat) (x : A) :
  nth_error l i = Some x ->
  nth_error (flat_map (fun p => [p; z]) l) (2 * i) = Some x
  /\ nth_error (flat_map (fun p => [p; z]) l) (2 * i + 1) = Some z.
Proof.
  revert i; induction l as [|y l IH]; intros i Hi.
  - destruct i; discriminate.
  - destruct i as [|i].
    + simpl in Hi. injection Hi as ->. now split.
    + replace (2 * S i) with (S (S (2 * i))) by lia.
      simpl in Hi |- *. now apply IH.
Qed.

Lemma combine_nth_error (A B : Type) (l : list A) (m : list B) (i : nat)
  (a : A) (b : B) :
  nth_error l i = Some a -> nth_error m i = Some b ->
  nth_error (combine l m) i = Some (a, b).
Proof.
  revert m i; induction l as [|x l IH]; intros [|y m] [|i] Ha Hb;
    try discriminate.
  - simpl in Ha, Hb. injection Ha as ->. injection Hb as ->. reflexivity.
  - simpl in Ha, Hb |- *. now apply IH.
Qed.

End LoopFacts.

(** ** The properties of the component *)

Section Properties.

Variable num : Type.
Variable num_eqb : num -> num -> bool.
Variable num_zero : num.

Lemma apart_of_non_overlapping (text : string) (l : list (entity num)) :
  Forall (in_bounds text) l ->
  ForallOrdPairs (@non_overlapping num) l ->
  ForallOrdPairs (@first_empty_on_tie num) l ->
  ForallOrdPairs (@apart num) l.
Proof.
  intros Hb Hn; revert Hb.
  induction Hn as [|a l Ha Hn IH]; intros Hb Ht; [constructor|].
  inversion Hb as [|? ? Hba Hbl]; subst.
  inversion Ht as [|? ? Hta Htl]; subst.
  constructor; [|now apply IH].
  rewrite Forall_forall in Ha, Hta, Hbl |- *. intros b Hin.
  specialize (Ha b Hin). specialize (Hta b Hin). specialize (Hbl b Hin).
  unfold non_overlapping, first_empty_on_tie, in_bounds, apart in *.
  lia.
Qed.

(** C1, as amended.  With [combine_adjacent=False], for a dictionary whose
    spans satisfy [0 <= start <= end <= len(text)], do not overlap one
    another and, where two of them start at the same place, have the one
    listed first empty, [postprocess] returns segments whose texts,
    concatenated in order, are the original text. *)
Theorem postprocess_round_trip (self : HighlightedTextbox) (text : string)
  (highlights : list (entity num)) :
  combine_adjacent self = false ->
  Forall (in_bounds text) highlights ->
  ForallOrdPairs (@non_overlapping num) highlights ->
  ForallOrdPairs (@first_empty_on_tie num) highlights ->
  reproduces_text num_eqb self text highlights.
Proof.
  intros Hflag Hb Hn Ht. unfold reproduces_text, structured, postprocess.
  destruct highlights as [|h hs].
  - cbn. rewrite Hflag. eexists; split; [reflexivity|].
    cbn. apply append_empty_r.
  - rewrite expand_dict_nonempty by discriminate.
    cbn [bind]. rewrite Hflag. eexists; split; [reflexivity|].
    rewrite expand_from_text.
    + apply slice_from_zero.
    + lia.
    + now apply sorted_Forall.
    + apply sorted_Forall. eapply Forall_impl; [|exact Hb].
      intros e He. unfold in_bounds in He. lia.
    + apply sorted_chain.
      * eapply Forall_impl; [|exact Hb].
        intros e He. unfold in_bounds in He. lia.
      * now apply apart_of_non_overlapping with (text := text).
Qed.

(** C2.  With [combine_adjacent=True] and any separator, running
    [postprocess] on a segment list and then on its own output gives that
    output again: the merge pass is idempotent. *)
Theorem combine_adjacent_idempotent (self : HighlightedTextbox)
  (y : list (segment num)) :
  combine_adjacent self = true ->
  exists out : list (segment num),
    postprocess num_eqb self (Some (Segments y)) = Ok (Some out)
    /\ postprocess num_eqb self (Some (Segments out)) = Ok (Some out).
Proof.
  intros Hflag. exists (combine_pass num_eqb (adjacent_separator self) y).
  unfold postprocess; cbn [bind]. rewrite Hflag.
  now rewrite combine_pass_idempotent.
Qed.

(** C3.  With [combine_adjacent=False], [postprocess] hands back the
    normalized segments untouched: [None] for [None], a segment list as it
    came, and for a dictionary exactly what the expansion produced (or the
    exception it raised). *)
Theorem postprocess_without_combine (self : HighlightedTextbox) :
  combine_adjacent self = false ->
  postprocess num_eqb self None = Ok None
  /\ (forall l : list (segment num),
        postprocess num_eqb self (Some (Segments l)) = Ok (Some l))
  /\ (forall d : value_dict num,
        postprocess num_eqb self (Some (Dict d))
        = (segs <- expand_dict d ;; Ok (Some segs))).
Proof.
  intros Hflag. unfold postprocess. repeat split.
  - intros l. cbn [bind]. now rewrite Hflag.
  - intros d. destruct (expand_dict d); cbn [bind]; [|reflexivity].
    now rewrite Hflag.
Qed.

(** C4.  A dictionary with no highlights gives the single segment
    [(text, None)], whatever the configuration. *)
Theorem postprocess_zero_highlights (self : HighlightedTextbox)
  (text : string) :
  postprocess num_eqb self (Some (structured text (@nil (entity num))))
  = Ok (Some [(text, LNone)]).
Proof.
  unfold postprocess, structured. cbn.
  destruct (combine_adjacent self); reflexivity.
Qed.

(** C5.  With [combine_adjacent=False] and [n >= 1] highlights, the output
    has [2n+1] segments: every even position holds a segment labelled
    [None] (present whatever its text, the empty string included) and
    position [2k+1] holds the text and the label of the [k]-th span in
    start order. *)
Theorem expansion_shape (self : HighlightedTextbox) (text : string)
  (highlights : list (entity num)) :
  combine_adjacent self = false ->
  highlights <> [] ->
  exists segs : list (segment num),
    postprocess num_eqb self (Some (structured text highlights))
    = Ok (Some segs)
    /\ List.length segs = 2 * List.length highlights + 1
    /\ (forall k : nat,
          k <= List.length highlights ->
          exists gap : string, nth_error segs (2 * k) = Some (gap, LNone))
    /\ (forall (k : nat) (e : entity num),
          nth_error (PyList.sorted start highlights) k = Some e ->
          nth_error segs (2 * k + 1)
          = Some (PyStr.slice text (Some (start e)) (Some (end_ e)),
                  highlight_type e)).
Proof.
  intros Hflag Hne. unfold postprocess, structured.
  rewrite expand_dict_nonempty by exact Hne.
  cbn [bind]. rewrite Hflag. eexists; split; [reflexivity|].
  split; [|split].
  - now rewrite expand_from_length, sorted_length.
  - intros k Hk. apply expand_from_gap. now rewrite sorted_length.
  - intros k e Hk. now apply expand_from_highlight.
Qed.

(** C6, as amended.  For a non-empty separator, [tokenize] returns the
    plain split of [x] on the separator and, for every token index, the
    tokens with that index removed (no replacement) or replaced, joined
    with the separator; there are as many of these as tokens. *)
Theorem tokenize_plain_split (self : HighlightedTextbox) (x : string) :
  PyStr.is_empty (interpretation_separator self) = false ->
  tokenize_returns self x.
Proof.
  intros Hsep. unfold tokenize_returns, tokenize, PyStr.split.
  rewrite Hsep. cbn [bind]. unfold range.
  rewrite leave_one_out_loop by (simpl; lia). cbn [bind app].
  eexists; eexists; split; [reflexivity|].
  split; [now apply split_scan_plain|].
  split; [now rewrite length_map, length_seq|].
  intros i Hi. now rewrite nth_error_seq_map.
Qed.

(** C7.  [get_interpretation_scores] returns two segments per pair of the
    zip, so [2 * min(len(tokens), len(scores))] in all: at [2i] the token
    with its score, at [2i+1] the separator with [0], the last token's
    separator included. *)
Theorem interpretation_scores_shape (self : HighlightedTextbox)
  (scores : list num) (tokens : list string) :
  List.length (get_interpretation_scores num_zero self scores tokens)
  = 2 * Nat.min (List.length tokens) (List.length scores)
  /\ forall (i : nat) (token : string) (score : num),
       nth_error tokens i = Some token ->
       nth_error scores i = Some score ->
       nth_error (get_interpretation_scores num_zero self scores tokens)
         (2 * i)
       = Some (token, score)
       /\ nth_error (get_interpretation_scores num_zero self scores tokens)
            (2 * i + 1)
          = Some (interpretation_separator self, num_zero).
Proof.
  unfold get_interpretation_scores. rewrite scores_loop. cbn [app]. split.
  - now rewrite flat_map_pairs_length, length_combine.
  - intros i token score Ht Hs.
    apply flat_map_pairs_nth. now apply combine_nth_error.
Qed.

(** C8.  A dictionary that lacks ["text"] or ["highlights"] makes
    [postprocess] raise a [ValueError] whose message names both keys, and
    [postprocess] raises in no other case. *)
Theorem postprocess_raises_iff_key_missing :
  (forall (self : HighlightedTextbox) (d : value_dict num),
      dict_text d = None \/ dict_highlights d = None ->
      postprocess num_eqb self (Some (Dict d))
      = Raise (ValueError expected_keys_message))
  /\ mentions expected_keys_message "'text'"
  /\ mentions expected_keys_message "'highlights'"
  /\ (forall (self : HighlightedTextbox) (y : option (value num)) (e : exn),
        postprocess num_eqb self y = Raise e ->
        exists d : value_dict num,
          y = Some (Dict d)
          /\ (dict_text d = None \/ dict_highlights d = None)
          /\ e = ValueError expected_keys_message).
Proof.
  split; [|split; [|split]].
  - intros self [[text|] [highlights|]] [H|H]; try discriminate H;
      reflexivity.
  - exists "Expected a dictionary with keys ",
      " and 'highlights' for the value of the HighlightedText component.".
    reflexivity.
  - exists "Expected a dictionary with keys 'text' and ",
      " for the value of the HighlightedText component.".
    reflexivity.
  - intros self [[l|d]|] e H.
    + unfold postprocess in H. cbn [bind] in H.
      destruct (combine_adjacent self); discriminate.
    + exists d. split; [reflexivity|].
      destruct d as [[text|] [highlights|]];
        try (cbn in H; injection H as <-; auto).
      exfalso. unfold postprocess in H.
      destruct highlights as [|h hs].
      * cbn in H. destruct (combine_adjacent self); discriminate.
      * rewrite expand_dict_nonempty in H by discriminate.
        cbn [bind] in H. destruct (combine_adjacent self); discriminate.
    + discriminate.
Qed.

(** On spans that carry integers under both keys [postprocess] returns a
    segment list, whatever the integers: overlapping, unordered, negative
    or out-of-range spans included. *)
Lemma postprocess_total_on_structured (self : HighlightedTextbox)
  (text : string) (highlights : list (entity num)) :
  exists segs : list (segment num),
    postprocess num_eqb self (Some (structured text highlights))
    = Ok (Some segs).
Proof.
  unfold postprocess, structured.
  destruct highlights as [|h hs].
  - cbn. destruct (combine_adjacent self); eauto.
  - rewrite expand_dict_nonempty by discriminate.
    cbn [bind]. destruct (combine_adjacent self); eauto.
Qed.

End Properties.


(** ** The properties at sample inputs *)

Example postprocess_cat :
  postprocess Z.eqb default_textbox
    (Some (structured "The cat sat" [span (LStr "ANIMAL") 4 7]))
  = Ok (Some [("The ", LNone); ("cat", LStr "ANIMAL"); (" sat", LNone)]).
Proof. reflexivity. Qed.

Example postprocess_empty_gaps :
  postprocess Z.eqb default_textbox
    (Some (structured "abcd" [span (LStr "A") 0 2; span (LStr "A") 2 4]))
  = Ok (Some [(EmptyString, LNone); ("ab", LStr "A"); (EmptyString, LNone);
              ("cd", LStr "A"); (EmptyString, LNone)]).
Proof. reflexivity. Qed.

Example postprocess_overlapping :
  postprocess Z.eqb default_textbox
    (Some (structured "abcd" overlapping_spans))
  = Ok (Some [("a", LNone); (EmptyString, LStr "B"); (EmptyString, LNone);
              ("bcd", LNum 7%Z); (EmptyString, LNone); ("cd", LStr "A");
              (EmptyString, LNone)]).
Proof. reflexivity. Qed.

Example postprocess_combine_sample :
  postprocess Z.eqb combining_textbox (Some (Segments sample_segments))
  = Ok (Some [("ab", LStr "A"); ("c", LStr "B"); ("de", LNone)]).
Proof. reflexivity. Qed.

Example tokenize_remove :
  tokenize default_textbox "a b c"
  = Ok (["a"; "b"; "c"], ["b c"; "a c"; "a b"], tt).
Proof. reflexivity. Qed.

Example tokenize_replace :
  tokenize replacing_textbox "a b c"
  = Ok (["a"; "b"; "c"], ["X b c"; "a X c"; "a b X"], tt).
Proof. reflexivity. Qed.

Example tokenize_consecutive_separators :
  tokenize default_textbox "a  b "
  = Ok (["a"; EmptyString; "b"; EmptyString], [" b "; "a b "; "a  "; "a  b"], tt).
Proof. reflexivity. Qed.

Example scores_sample :
  get_interpretation_scores 0%Z default_textbox [1%Z; 2%Z] ["a"; "b"]
  = [("a", 1%Z); (" ", 0%Z); ("b", 2%Z); (" ", 0%Z)].
Proof. reflexivity. Qed.

Example scores_truncate :
  get_interpretation_scores 0%Z default_textbox [1%Z] ["a"; "b"; "c"]
  = [("a", 1%Z); (" ", 0%Z)].
Proof. reflexivity. Qed.

(** C1, as stated, fails: the two spans of [tie_spans] lie within
    ["abcd"] and share no position, yet the segments spell ["abcdcd"]. *)
Lemma round_trip_fails_on_tie :
  Forall (in_bounds "abcd") tie_spans
  /\ ForallOrdPairs (@non_overlapping Z) tie_spans
  /\ postprocess Z.eqb default_textbox (Some (structured "abcd" tie_spans))
     = Ok (Some [("ab", LNone); ("cd", LStr "A"); (EmptyString, LNone);
                 (EmptyString, LStr "B"); ("cd", LNone)])
  /\ ~ reproduces_text Z.eqb default_textbox "abcd" tie_spans.
Proof.
  split; [|split; [|split]].
  - repeat constructor; cbn; lia.
  - repeat constructor; unfold non_overlapping; cbn; lia.
  - reflexivity.
  - intros (segs & Hrun & Htext).
    vm_compute in Hrun. injection Hrun as <-.
    vm_compute in Htext. discriminate Htext.
Qed.

Lemma postprocess_round_trip_witness :
  reproduces_text Z.eqb default_textbox "The cat sat" cat_spans.
Proof.
  apply postprocess_round_trip.
  - reflexivity.
  - repeat constructor; cbn; lia.
  - repeat constructor; unfold non_overlapping; cbn; lia.
  - repeat constructor; unfold first_empty_on_tie; cbn; lia.
Defined.

Lemma combine_adjacent_idempotent_witness :
  exists out : list (segment Z),
    postprocess Z.eqb combining_textbox (Some (Segments sample_segments))
    = Ok (Some out)
    /\ postprocess Z.eqb combining_textbox (Some (Segments out))
       = Ok (Some out).
Proof.
  apply (combine_adjacent_idempotent Z.eqb combining_textbox sample_segments).
  reflexivity.
Defined.

Lemma postprocess_without_combine_witness :
  postprocess Z.eqb default_textbox None = Ok None
  /\ (forall l : list (segment Z),
        postprocess Z.eqb default_textbox (Some (Segments l)) = Ok (Some l))
  /\ (forall d : value_dict Z,
        postprocess Z.eqb default_textbox (Some (Dict d))
        = (segs <- expand_dict d ;; Ok (Some segs))).
Proof.
  apply (postprocess_without_combine Z.eqb default_textbox). reflexivity.
Defined.

Lemma expansion_shape_witness :
  exists segs : list (segment Z),
    postprocess Z.eqb default_textbox (Some (structured "The cat sat" cat_spans))
    = Ok (Some segs)
    /\ List.length segs = 2 * List.length cat_spans + 1
    /\ (forall k : nat,
          k <= List.length cat_spans ->
          exists gap : string, nth_error segs (2 * k) = Some (gap, LNone))
    /\ (forall (k : nat) (e : entity Z),
          nth_error (PyList.sorted start cat_spans) k = Some e ->
          nth_error segs (2 * k + 1)
          = Some (PyStr.slice "The cat sat" (Some (start e)) (Some (end_ e)),
                  highlight_type e)).
Proof.
  apply (expansion_shape Z.eqb default_textbox "The cat sat" (highlights := cat_spans)).
  - reflexivity.
  - discriminate.
Defined.

(** C6, as stated, fails: with the empty separator [tokenize] raises. *)
Lemma tokenize_empty_separator_raises :
  tokenize empty_separator_textbox "a b"
  = Raise (ValueError "empty separator")
  /\ ~ tokenize_returns empty_separator_textbox "a b".
Proof.
  split; [reflexivity|].
  intros (tokens & masked & Hrun & _). discriminate Hrun.
Qed.

Lemma tokenize_plain_split_witness :
  tokenize_returns replacing_textbox "a  b c".
Proof.
  apply tokenize_plain_split. reflexivity.
Defined.


(** ** More on the combine-adjacent pass *)

Section MoreCombineFacts.

Variable num : Type.
Variable num_eqb : num -> num -> bool.

Lemma segments_text_cons (seg : segment num) (l : list (segment num)) :
  segments_text (seg :: l) = (fst seg ++ segments_text l)%string.
Proof. reflexivity. Qed.

(** With the empty separator nothing is added to or lost from the texts. *)
Lemma combine_from_text (y : list (segment num)) (running : segment num) :
  segments_text (combine_from num_eqb EmptyString running y)
  = (fst running ++ segments_text y)%string.
Proof.
  revert running; induction y as [|[text category] rest IH]; intros [rt rc].
  - reflexivity.
  - cbn [combine_from fst snd]. rewrite segments_text_cons. cbn [fst].
    destruct (label_eqb num_eqb category rc).
    + rewrite IH. cbn [fst append]. now rewrite append_assoc.
    + destruct text as [|c text]; cbn [PyStr.is_empty].
      * now rewrite IH.
      * rewrite segments_text_cons, IH. reflexivity.
Qed.

Lemma combine_from_length (sep : string) (y : list (segment num))
  (running : segment num) :
  1 <= List.length (combine_from num_eqb sep running y) <= S (List.length y).
Proof.
  revert running; induction y as [|[text category] rest IH]; intros [rt rc].
  - simpl. lia.
  - cbn [combine_from fst snd List.length].
    destruct (label_eqb num_eqb category rc).
    + specialize (IH ((rt ++ (sep ++ text))%string, rc)). lia.
    + destruct (PyStr.is_empty text).
      * specialize (IH (rt, rc)). lia.
      * specialize (IH (text, category)). cbn [List.length]. lia.
Qed.

Lemma settled_texts (prev : label num) (l : list (segment num)) :
  settled num_eqb prev l ->
  Forall (fun seg => PyStr.is_empty (fst seg) = false) l.
Proof.
  revert prev; induction l as [|[t c] rest IH]; intros prev Hset.
  - constructor.
  - destruct Hset as (_ & Hne & Hrest). constructor; [exact Hne|].
    now apply (IH c).
Qed.

Lemma join_merge_head (sep a b : string) (l : list string) :
  PyStr.join sep ((a ++ (sep ++ b))%string :: l) = PyStr.join sep (a :: b :: l).
Proof.
  destruct l as [|c l].
  - reflexivity.
  - change (PyStr.join sep ((a ++ (sep ++ b))%string :: c :: l))
      with ((a ++ (sep ++ b)) ++ sep ++ PyStr.join sep (c :: l))%string.
    change (PyStr.join sep (a :: b :: c :: l))
      with (a ++ sep ++ (b ++ sep ++ PyStr.join sep (c :: l)))%string.
    now rewrite !append_assoc.
Qed.

(** Items that all compare equal to the running label end up in one segment. *)
Lemma combine_from_one_label (sep : string) (y : list (segment num))
  (rt : string) (rc : label num) :
  Forall (fun seg => label_eqb num_eqb (snd seg) rc = true) y ->
  combine_from num_eqb sep (rt, rc) y
  = [(PyStr.join sep (rt :: map fst y), rc)].
Proof.
  intros Hall; revert rt.
  induction Hall as [|[text category] rest Heq Hrest IH]; intros rt.
  - reflexivity.
  - cbn [combine_from fst snd] in *. rewrite Heq, IH.
    cbn [map fst]. now rewrite join_merge_head.
Qed.

(** Items that compare equal to the running label are taken into it. *)
Lemma combine_from_run (sep : string) (run rest : list (segment num))
  (rt : string) (rc : label num) :
  Forall (fun seg => label_eqb num_eqb (snd seg) rc = true) run ->
  combine_from num_eqb sep (rt, rc) (run ++ rest)
  = combine_from num_eqb sep (PyStr.join sep (rt :: map fst run), rc) rest.
Proof.
  intros Hall; revert rt.
  induction Hall as [|[text category] run Heq Hrun IH]; intros rt.
  - reflexivity.
  - cbn [combine_from fst snd app] in *. rewrite Heq, IH.
    cbn [map fst]. now rewrite join_merge_head.
Qed.

(** The running segment opens the result: its label is kept and its text
    is only ever extended. *)
Lemma combine_from_head (sep : string) (y : list (segment num))
  (rt : string) (rc : label num) :
  exists suffix tail,
    combine_from num_eqb sep (rt, rc) y = ((rt ++ suffix)%string, rc) :: tail.
Proof.
  revert rt rc; induction y as [|[text category] rest IH]; intros rt rc.
  - exists EmptyString, []. now rewrite append_empty_r.
  - cbn [combine_from fst snd].
    destruct (label_eqb num_eqb category rc).
    + destruct (IH (rt ++ (sep ++ text))%string rc) as (suffix & tail & ->).
      exists ((sep ++ text) ++ suffix)%string, tail.
      now rewrite append_assoc.
    + destruct (PyStr.is_empty text); [apply IH|].
      exists EmptyString. rewrite append_empty_r. eauto.
Qed.

(** Every label of the result is the running label or one of the items'. *)
Lemma combine_from_labels (sep : string) (y : list (segment num))
  (running : segment num) :
  Forall (fun seg => In (snd seg) (snd running :: map snd y))
    (combine_from num_eqb sep running y).
Proof.
  revert running; induction y as [|[text category] rest IH]; intros [rt rc].
  - repeat constructor.
  - cbn [combine_from fst snd map].
    destruct (label_eqb num_eqb category rc).
    + eapply Forall_impl; [|apply IH]. cbn. intros seg [H|H]; auto.
    + destruct (PyStr.is_empty text).
      * eapply Forall_impl; [|apply IH]. cbn. intros seg [H|H]; auto.
      * constructor; [cbn; auto|].
        eapply Forall_impl; [|apply IH]. cbn. intros seg [H|H]; auto.
Qed.

End MoreCombineFacts.

(** ** More on sorting, slicing and the expansion *)

Section MoreSortedFacts.

Variable A : Type.
Variable key : A -> Z.

Lemma key_injective_on (l : list A) (x y : A) :
  NoDup (map key l) -> In x l -> In y l -> key x = key y -> x = y.
Proof.
  induction l as [|a l IH]; intros Hnd Hx Hy Hk; [contradiction|].
  cbn [map] in Hnd. apply NoDup_cons_iff in Hnd as [Hnot Hnd].
  destruct Hx as [->|Hx], Hy as [->|Hy]; auto.
  - exfalso. apply Hnot. rewrite Hk. now apply in_map.
  - exfalso. apply Hnot. rewrite <- Hk. now apply in_map.
Qed.

(** Two ascending arrangements of the same elements, with no key twice,
    are the same list. *)
Lemma ascending_perm_unique (a b : list A) :
  StronglySorted (key_le key) a -> StronglySorted (key_le key) b ->
  Permutation a b -> NoDup (map key a) -> a = b.
Proof.
  intros Ha; revert b.
  induction Ha as [|x a Ha IH Hx]; intros b Hb Hp Hnd.
  - now apply Permutation_nil in Hp.
  - destruct Hb as [|y b Hb Hy].
    + apply Permutation_sym, Permutation_nil in Hp. discriminate.
    + assert (Hyin : In y (x :: a)).
      { eapply Permutation_in; [apply Permutation_sym, Hp | now left]. }
      assert (Hxin : In x (y :: b)).
      { eapply Permutation_in; [exact Hp | now left]. }
      rewrite Forall_forall in Hx, Hy.
      assert (Hxy : (key x <= key y)%Z).
      { destruct Hyin as [->|Hin]; [lia | now apply Hx]. }
      assert (Hyx : (key y <= key x)%Z).
      { destruct Hxin as [->|Hin]; [lia | now apply Hy]. }
      assert (x = y).
      { apply (key_injective_on (x :: a)); auto; [now left | lia]. }
      subst y. apply Permutation_cons_inv in Hp.
      cbn [map] in Hnd. apply NoDup_cons_iff in Hnd as [_ Hnd].
      f_equal. now apply IH.
Qed.

(** The order in which elements with distinct keys come does not matter. *)
Lemma sorted_perm_invariant (l l' : list A) :
  Permutation l l' -> NoDup (map key l) ->
  PyList.sorted key l = PyList.sorted key l'.
Proof.
  intros Hp Hnd. apply ascending_perm_unique.
  - apply sorted_ascending.
  - apply sorted_ascending.
  - eapply perm_trans; [apply Permutation_sym, sorted_perm|].
    eapply perm_trans; [exact Hp | apply sorted_perm].
  - eapply Permutation_NoDup; [|exact Hnd].
    apply Permutation_map, sorted_perm.
Qed.

End MoreSortedFacts.

Section MoreExpansionFacts.

Variable num : Type.

Lemma substring_length (s : string) (n m : nat) :
  n + m <= String.length s -> String.length (substring n m s) = m.
Proof.
  revert n m; induction s as [|c s IH]; intros n m H.
  - simpl in H. assert (n = 0) by lia. assert (m = 0) by lia. now subst.
  - destruct n as [|n].
    + destruct m as [|m]; [reflexivity|].
      simpl in H |- *. rewrite IH; lia.
    + simpl in H |- *. apply IH. lia.
Qed.

(** [len(text[a:b]) = b - a] when [0 <= a <= b <= len(text)]. *)
Lemma slice_length (text : string) (a b : Z) :
  (0 <= a <= b)%Z -> (b <= Z.of_nat (String.length text))%Z ->
  Z.of_nat (String.length (PyStr.slice text (Some a) (Some b))) = (b - a)%Z.
Proof.
  intros Hab Hb. unfold PyStr.slice. rewrite !adjust_index_id by lia.
  destruct (Z.ltb_spec a b) as [Hlt|Hge].
  - rewrite substring_length; lia.
  - simpl. lia.
Qed.

(** The expansion of in-bounds spans that keep apart spells the text. *)
Lemma expand_dict_spells_text (text : string) (highlights : list (entity num)) :
  Forall (in_bounds text) highlights ->
  ForallOrdPairs (@non_overlapping num) highlights ->
  ForallOrdPairs (@first_empty_on_tie num) highlights ->
  exists segs : list (segment num),
    expand_dict {| dict_text := Some text; dict_highlights := Some highlights |}
    = Ok segs
    /\ segments_text segs = text.
Proof.
  intros Hb Hn Ht. destruct highlights as [|h hs].
  - eexists; split; [reflexivity|]. cbn. apply append_empty_r.
  - rewrite expand_dict_nonempty by discriminate.
    eexists; split; [reflexivity|].
    rewrite expand_from_text.
    + apply slice_from_zero.
    + lia.
    + now apply sorted_Forall.
    + apply sorted_Forall. eapply Forall_impl; [|exact Hb].
      intros e He. unfold in_bounds in He. lia.
    + apply sorted_chain.
      * eapply Forall_impl; [|exact Hb].
        intros e He. unfold in_bounds in He. lia.
      * now apply apart_of_non_overlapping with (text := text).
Qed.

End MoreExpansionFacts.

(** ** More on splitting *)

Section MoreSplitFacts.

(** No token of a plain split holds the separator. *)
Lemma plain_split_tokens_free (sep s : string) (toks : list string) :
  PyStr.is_empty sep = false ->
  plain_split sep s toks ->
  Forall (fun tok => ~ mentions tok sep) toks.
Proof.
  intros Hsep Hsplit.
  assert (Hlen : 1 <= String.length sep) by (destruct sep; [discriminate | simpl; lia]).
  induction Hsplit as [s Hno|tok rest toks Hno Hrest IH].
  - constructor; [|constructor].
    intros (pre & post & ->).
    apply (no_start_before_occurrence sep pre post) in Hno; [exact Hno|].
    rewrite append_length. lia.
  - constructor; [|exact IH].
    intros (pre & post & ->).
    rewrite !append_assoc in Hno.
    apply (no_start_before_occurrence sep pre (post ++ sep ++ rest)) in Hno;
      [exact Hno|].
    rewrite !append_length. lia.
Qed.

(** In a string that does not hold the separator it starts nowhere. *)
Lemma free_no_start (sep : string) (n : nat) (s : string) :
  ~ mentions s sep -> no_start_before sep n s.
Proof.
  revert s; induction n as [|n IH]; intros s Hfree; [exact I|].
  split.
  - destruct (PyStr.startswith sep s) eqn:Hstart; [|reflexivity].
    exfalso. apply Hfree. apply startswith_inv in Hstart as [rest ->].
    now exists EmptyString, rest.
  - destruct s as [|c s']; [exact I|].
    apply IH. intros (pre & post & ->).
    apply Hfree. now exists (String c pre), post.
Qed.

(** What [tokenize] computes for a non-empty separator. *)
Lemma tokenize_value (self : HighlightedTextbox) (x : string) :
  PyStr.is_empty (interpretation_separator self) = false ->
  tokenize self x
  = Ok (PyStr.split_scan (interpretation_separator self) 0 x,
        map (masked_variant (interpretation_separator self)
               (interpretation_replacement self)
               (PyStr.split_scan (interpretation_separator self) 0 x))
          (seq 0 (List.length
                    (PyStr.split_scan (interpretation_separator self) 0 x))),
        tt).
Proof.
  intros Hsep. unfold tokenize, PyStr.split. rewrite Hsep. cbn [bind].
  unfold range. rewrite leave_one_out_loop by (simpl; lia). reflexivity.
Qed.

Lemma tokenize_inv (self : HighlightedTextbox) (x : string)
  (tokens masked : list string) :
  tokenize self x = Ok (tokens, masked, tt) ->
  PyStr.is_empty (interpretation_separator self) = false
  /\ tokens = PyStr.split_scan (interpretation_separator self) 0 x
  /\ masked = map (masked_variant (interpretation_separator self)
                     (interpretation_replacement self) tokens)
                (seq 0 (List.length tokens)).
Proof.
  intros Hrun.
  destruct (PyStr.is_empty (interpretation_separator self)) eqn:Hsep.
  - unfold tokenize, PyStr.split in Hrun. rewrite Hsep in Hrun. discriminate.
  - rewrite tokenize_value in Hrun by exact Hsep.
    injection Hrun as <- <-. auto.
Qed.

(** Token after token, each followed by the separator. *)
Lemma pairs_text_scores (B : Type) (sep : string) (z : B)
  (tokens : list string) (scores : list B) :
  List.length scores = List.length tokens ->
  tokens <> [] ->
  pairs_text (flat_map (fun p => [p; (sep, z)]) (combine tokens scores))
  = (PyStr.join sep tokens ++ sep)%string.
Proof.
  revert scores; induction tokens as [|t tokens IH]; intros scores Hlen Hne;
    [congruence|].
  destruct scores as [|sc scores]; [discriminate|].
  cbn [combine flat_map app pairs_text fold_right fst].
  fold (pairs_text (flat_map (fun p => [p; (sep, z)]) (combine tokens scores))).
  destruct tokens as [|t' tokens'].
  - destruct scores; [|discriminate]. cbn. now rewrite append_empty_r.
  - rewrite IH by (simpl in Hlen |- *; congruence).
    change (PyStr.join sep (t :: t' :: tokens'))
      with (t ++ sep ++ PyStr.join sep (t' :: tokens'))%string.
    now rewrite !append_assoc.
Qed.

End MoreSplitFacts.

(** ** Masked inputs *)

Section MaskFacts.

Lemma boolean_index_ok (A : Type) (a : list A) (mask : list bool) :
  mask = [] \/ List.length mask = List.length a ->
  Numpy.boolean_index a mask = Ok (Numpy.select a mask).
Proof.
  intros H. unfold Numpy.boolean_index.
  destruct (Nat.eqb_spec (List.length mask) 0) as [Hzero|Hnz].
  - apply length_zero_iff_nil in Hzero as ->. destruct a; reflexivity.
  - destruct H as [->|H]; [now cbn in Hnz|].
    now rewrite H, Nat.eqb_refl.
Qed.

Lemma boolean_index_mismatch (A : Type) (a : list A) (mask : list bool) :
  mask <> [] ->
  List.length mask <> List.length a ->
  Numpy.boolean_index a mask
  = Raise (IndexError
             (Numpy.mismatch_message (List.length a) (List.length mask))).
Proof.
  intros Hne H. unfold Numpy.boolean_index.
  destruct (Nat.eqb_spec (List.length mask) 0) as [Hzero|_].
  - now apply length_zero_iff_nil in Hzero.
  - now apply Nat.eqb_neq in H as ->.
Qed.

Lemma array_lengths (tokens : list string) (row : list Z) :
  Numpy.array_of_bool row = [] \/
  List.length (Numpy.array_of_bool row)
  = List.length (Numpy.array_of_str tokens)
  <-> row = [] \/ List.length row = List.length tokens.
Proof.
  unfold Numpy.array_of_bool, Numpy.array_of_str. rewrite !length_map.
  destruct row; cbn; intuition congruence.
Qed.

(** The text one mask row selects. *)
Definition masked_input_of (sep : string) (tokens : list string)
  (row : list Z) : string :=
  PyStr.join sep
    (Numpy.select (Numpy.array_of_str tokens) (Numpy.array_of_bool row)).

Lemma masked_inputs_loop_ok (sep : string) (tokens : list string)
  (matrix : list (list Z)) (acc : list string) :
  Forall (fun row => row = [] \/ List.length row = List.length tokens)
    matrix ->
  for_each matrix
    (fun binary_mask_vector masked_inputs =>
       masked_input <-
         Numpy.boolean_index (Numpy.array_of_str tokens)
           (Numpy.array_of_bool binary_mask_vector) ;;
       Ok (masked_inputs ++ [PyStr.join sep masked_input]))
    acc
  = Ok (acc ++ map (masked_input_of sep tokens) matrix).
Proof.
  intros Hall; revert acc.
  induction Hall as [|row matrix Hrow Hrest IH]; intros acc; simpl.
  - now rewrite app_nil_r.
  - rewrite boolean_index_ok by now apply array_lengths.
    cbn [bind]. rewrite IH, <- app_assoc. reflexivity.
Qed.

Lemma masked_inputs_loop_mismatch (sep : string) (tokens : list string)
  (matrix : list (list Z)) (acc : list string) :
  Exists (fun row => row <> [] /\ List.length row <> List.length tokens)
    matrix ->
  exists msg : string,
    for_each matrix
      (fun binary_mask_vector masked_inputs =>
         masked_input <-
           Numpy.boolean_index (Numpy.array_of_str tokens)
             (Numpy.array_of_bool binary_mask_vector) ;;
         Ok (masked_inputs ++ [PyStr.join sep masked_input]))
      acc
    = Raise (IndexError msg).
Proof.
  revert acc; induction matrix as [|row matrix IH]; intros acc Hex.
  - inversion Hex.
  - simpl.
    destruct row as [|z row].
    + rewrite boolean_index_ok by now left.
      cbn [bind]. apply IH.
      inversion Hex as [? ? [Hbad _]|? ? Hlater]; subst;
        [congruence | exact Hlater].
    + destruct (Nat.eq_dec (List.length (z :: row)) (List.length tokens))
        as [Heq|Hne].
      * rewrite boolean_index_ok by (apply array_lengths; now right).
        cbn [bind]. apply IH.
        inversion Hex as [? ? [_ Hbad]|? ? Hlater]; subst;
          [contradiction | exact Hlater].
      * rewrite boolean_index_mismatch.
        -- cbn [bind]. eauto.
        -- discriminate.
        -- unfold Numpy.array_of_bool, Numpy.array_of_str.
           now rewrite !length_map.
Qed.

Lemma array_of_str_id (tokens : list string) :
  Forall (fun tok => Numpy.rstrip_nul tok = tok) tokens ->
  Numpy.array_of_str tokens = tokens.
Proof.
  unfold Numpy.array_of_str.
  induction 1 as [|tok tokens Htok _ IH]; simpl; [reflexivity|].
  now rewrite Htok, IH.
Qed.

Lemma select_all (A : Type) (a : list A) (row : list Z) :
  List.length row = List.length a ->
  Forall (fun z => z <> 0%Z) row ->
  Numpy.select a (Numpy.array_of_bool row) = a.
Proof.
  revert row; induction a as [|x a IH]; intros [|z row] Hlen Hall;
    try discriminate; [reflexivity|].
  inversion Hall as [|? ? Hz Hrow]; subst.
  cbn. apply Z.eqb_neq in Hz as ->. cbn.
  f_equal. apply IH; [simpl in Hlen; lia | exact Hrow].
Qed.

Lemma select_none (A : Type) (a : list A) (row : list Z) :
  Forall (fun z => z = 0%Z) row ->
  Numpy.select a (Numpy.array_of_bool row) = [].
Proof.
  intros Hall; revert a.
  induction Hall as [|z row -> _ IH]; intros [|x a]; try reflexivity.
  cbn. apply IH.
Qed.

Lemma select_after (A : Type) (a : list A) (i k : nat) :
  i < k ->
  Numpy.select a
    (Numpy.array_of_bool
       (map (fun j => if Nat.eqb j i then 0%Z else 1%Z)
          (seq k (List.length a))))
  = a.
Proof.
  intros Hik. apply select_all.
  - now rewrite length_map, length_seq.
  - apply Forall_forall. intros z Hz.
    apply in_map_iff in Hz as (j & <- & Hj). apply in_seq in Hj.
    destruct (Nat.eqb_spec j i); [lia | discriminate].
Qed.

(** The row built for index [i] selects every element but the [i]-th. *)
Lemma select_leave_one_out (A : Type) (a : list A) (i k : nat) :
  i < List.length a ->
  Numpy.select a
    (Numpy.array_of_bool
       (map (fun j => if Nat.eqb j (k + i) then 0%Z else 1%Z)
          (seq k (List.length a))))
  = without_index i a.
Proof.
  revert i k; induction a as [|x a IH]; intros i k Hi; [simpl in Hi; lia|].
  cbn [List.length seq map Numpy.array_of_bool].
  destruct i as [|i].
  - rewrite Nat.add_0_r, Nat.eqb_refl. cbn.
    fold (Numpy.array_of_bool
            (map (fun j => if Nat.eqb j k then 0%Z else 1%Z)
               (seq (S k) (List.length a)))).
    apply select_after. lia.
  - destruct (Nat.eqb_spec k (k + S i)) as [Heq|_]; [lia|]. cbn.
    fold (Numpy.array_of_bool
            (map (fun j => if Nat.eqb j (k + S i) then 0%Z else 1%Z)
               (seq (S k) (List.length a)))).
    replace (k + S i) with (S k + i) by lia.
    rewrite IH by (simpl in Hi; lia). reflexivity.
Qed.

End MaskFacts.

(** ** Further properties of the component *)

Section FurtherProperties.

Variable num : Type.
Variable num_eqb : num -> num -> bool.

Lemma combine_pass_text (y : list (segment num)) :
  segments_text (combine_pass num_eqb EmptyString y) = segments_text y.
Proof.
  destruct y as [|seg rest]; [reflexivity|].
  rewrite combine_pass_cons. apply combine_from_text.
Qed.

(** X1.  With [combine_adjacent=True] and the empty [adjacent_separator],
    the pass keeps the text: the texts of the output segments, concatenated,
    are those of the input segments, concatenated. *)
Theorem combine_keeps_text (self : HighlightedTextbox)
  (y : list (segment num)) :
  combine_adjacent self = true ->
  adjacent_separator self = EmptyString ->
  exists out : list (segment num),
    postprocess num_eqb self (Some (Segments y)) = Ok (Some out)
    /\ segments_text out = segments_text y.
Proof.
  intros Hflag Hsep. unfold postprocess; cbn [bind]. rewrite Hflag, Hsep.
  eexists; split; [reflexivity | apply combine_pass_text].
Qed.

(** X2.  The round trip survives merging: with [combine_adjacent=True] and
    the empty [adjacent_separator], a dictionary whose spans lie within the
    text, do not overlap and have the first-listed of two equal starts
    empty yields segments whose texts spell the text. *)
Theorem round_trip_with_combine (self : HighlightedTextbox) (text : string)
  (highlights : list (entity num)) :
  combine_adjacent self = true ->
  adjacent_separator self = EmptyString ->
  Forall (in_bounds text) highlights ->
  ForallOrdPairs (@non_overlapping num) highlights ->
  ForallOrdPairs (@first_empty_on_tie num) highlights ->
  reproduces_text num_eqb self text highlights.
Proof.
  intros Hflag Hsep Hb Hn Ht.
  destruct (expand_dict_spells_text Hb Hn Ht) as (segs & Hrun & Htext).
  unfold reproduces_text, structured, postprocess.
  rewrite Hrun. cbn [bind]. rewrite Hflag, Hsep.
  eexists; split; [reflexivity|].
  now rewrite combine_pass_text.
Qed.

(** X3.  With [combine_adjacent=True] the output never has more segments
    than the input, and it is empty exactly when the input is. *)
Theorem combine_never_longer (self : HighlightedTextbox)
  (y : list (segment num)) :
  combine_adjacent self = true ->
  exists out : list (segment num),
    postprocess num_eqb self (Some (Segments y)) = Ok (Some out)
    /\ List.length out <= List.length y
    /\ (out = [] <-> y = []).
Proof.
  intros Hflag. unfold postprocess; cbn [bind]. rewrite Hflag.
  eexists; split; [reflexivity|].
  destruct y as [|seg rest].
  - rewrite combine_pass_nil. split; [lia | tauto].
  - rewrite combine_pass_cons.
    pose proof (combine_from_length num_eqb (adjacent_separator self) rest seg)
      as Hlen.
    split; [simpl; lia|].
    split; [|discriminate].
    intros Hnil. rewrite Hnil in Hlen. simpl in Hlen. lia.
Qed.

(** X4.  With [combine_adjacent=True] every output segment after the first
    has a non-empty text. *)
Theorem combine_later_segments_nonempty (self : HighlightedTextbox)
  (y : list (segment num)) :
  combine_adjacent self = true ->
  exists out : list (segment num),
    postprocess num_eqb self (Some (Segments y)) = Ok (Some out)
    /\ forall (i : nat) (seg : segment num),
         nth_error out (S i) = Some seg -> PyStr.is_empty (fst seg) = false.
Proof.
  intros Hflag. unfold postprocess; cbn [bind]. rewrite Hflag.
  eexists; split; [reflexivity|].
  intros i seg Hseg.
  destruct y as [|[text category] rest].
  - rewrite combine_pass_nil in Hseg. discriminate.
  - rewrite combine_pass_cons in Hseg.
    destruct (combine_from_settled num_eqb (adjacent_separator self)
                rest text category) as (rt' & tail & Hrun & Hset & _).
    rewrite Hrun in Hseg. cbn [nth_error] in Hseg.
    apply settled_texts in Hset. rewrite Forall_forall in Hset.
    apply Hset. eapply nth_error_In, Hseg.
Qed.

(** X5.  With [combine_adjacent=True], when every later label compares
    equal to the first one, the output is the single segment that carries
    the first label and all the texts joined by [adjacent_separator]. *)
Theorem combine_single_label (self : HighlightedTextbox) (text : string)
  (category : label num) (rest : list (segment num)) :
  combine_adjacent self = true ->
  Forall (fun seg => label_eqb num_eqb (snd seg) category = true) rest ->
  postprocess num_eqb self (Some (Segments ((text, category) :: rest)))
  = Ok (Some [(PyStr.join (adjacent_separator self) (text :: map fst rest),
               category)]).
Proof.
  intros Hflag Hall. unfold postprocess; cbn [bind]. rewrite Hflag.
  rewrite combine_pass_cons. now rewrite combine_from_one_label.
Qed.

(** X6.  With [combine_adjacent=True] the first input segment is never
    dropped, empty or not: the output opens with a segment that carries its
    label and whose text starts with its text. *)
Theorem combine_keeps_first (self : HighlightedTextbox) (text : string)
  (category : label num) (rest : list (segment num)) :
  combine_adjacent self = true ->
  exists (suffix : string) (tail : list (segment num)),
    postprocess num_eqb self (Some (Segments ((text, category) :: rest)))
    = Ok (Some (((text ++ suffix)%string, category) :: tail)).
Proof.
  intros Hflag. unfold postprocess; cbn [bind]. rewrite Hflag.
  rewrite combine_pass_cons.
  destruct (combine_from_head num_eqb (adjacent_separator self) rest
              text category) as (suffix & tail & ->).
  eauto.
Qed.

(** X7.  With [combine_adjacent=True] every label of the output is the
    label of some input segment. *)
Theorem combine_labels_from_input (self : HighlightedTextbox)
  (y : list (segment num)) :
  combine_adjacent self = true ->
  exists out : list (segment num),
    postprocess num_eqb self (Some (Segments y)) = Ok (Some out)
    /\ Forall (fun seg => In (snd seg) (map snd y)) out.
Proof.
  intros Hflag. unfold postprocess; cbn [bind]. rewrite Hflag.
  eexists; split; [reflexivity|].
  destruct y as [|seg rest]; [constructor|].
  rewrite combine_pass_cons. apply combine_from_labels.
Qed.

(** X8.  When no two highlights start at the same place, the order in
    which the dictionary lists them does not matter. *)
Theorem highlights_order_irrelevant (self : HighlightedTextbox)
  (text : string) (highlights highlights' : list (entity num)) :
  Permutation highlights highlights' ->
  NoDup (map start highlights) ->
  postprocess num_eqb self (Some (structured text highlights))
  = postprocess num_eqb self (Some (structured text highlights')).
Proof.
  intros Hp Hnd. unfold postprocess, structured.
  destruct highlights as [|h hs], highlights' as [|h' hs'].
  - reflexivity.
  - apply Permutation_nil in Hp. discriminate.
  - apply Permutation_sym, Permutation_nil in Hp. discriminate.
  - rewrite !expand_dict_nonempty by discriminate.
    now rewrite (sorted_perm_invariant start Hp Hnd).
Qed.

(** X9.  With [combine_adjacent=False], the segment of a span that lies
    within the text carries the span's label and has [end - start]
    characters. *)
Theorem highlight_segment_length (self : HighlightedTextbox) (text : string)
  (highlights : list (entity num)) (k : nat) (e : entity num) :
  combine_adjacent self = false ->
  nth_error (PyList.sorted start highlights) k = Some e ->
  in_bounds text e ->
  exists (segs : list (segment num)) (seg : segment num),
    postprocess num_eqb self (Some (structured text highlights))
    = Ok (Some segs)
    /\ nth_error segs (2 * k + 1) = Some seg
    /\ snd seg = highlight_type e
    /\ Z.of_nat (String.length (fst seg)) = (end_ e - start e)%Z.
Proof.
  intros Hflag Hk (H0 & Hse & Hlen). unfold postprocess, structured.
  destruct highlights as [|h hs]; [destruct k; discriminate|].
  rewrite expand_dict_nonempty by discriminate.
  cbn [bind]. rewrite Hflag.
  eexists; eexists; split; [reflexivity|].
  split; [eapply expand_from_highlight, Hk|].
  split; [reflexivity|]. cbn [fst]. apply slice_length; lia.
Qed.

End FurtherProperties.

(** ** Further properties of the interpretation methods *)

Section InterpretationProperties.

Variable num : Type.
Variable num_zero : num.

(** X10.  [tokenize] raises exactly when the separator is the empty string,
    and then it is the [ValueError] of [str.split]; the loop over the tokens
    never raises. *)
Theorem tokenize_raises_iff_empty_separator (self : HighlightedTextbox)
  (x : string) :
  (forall e : exn,
      tokenize self x = Raise e <->
      interpretation_separator self = EmptyString
      /\ e = ValueError "empty separator").
Proof.
  intros e. split.
  - intros Hrun.
    destruct (interpretation_separator self) as [|c sep] eqn:Hsep.
    + unfold tokenize, PyStr.split in Hrun. rewrite Hsep in Hrun.
      cbn in Hrun. injection Hrun as <-. auto.
    + rewrite tokenize_value in Hrun by now rewrite Hsep. discriminate.
  - intros [Hsep ->]. unfold tokenize, PyStr.split. now rewrite Hsep.
Qed.

(** X11.  Joining the tokens that [tokenize] returns with the separator
    gives the input string back. *)
Theorem tokenize_join_round_trip (self : HighlightedTextbox) (x : string)
  (tokens masked : list string) :
  tokenize self x = Ok (tokens, masked, tt) ->
  PyStr.join (interpretation_separator self) tokens = x.
Proof.
  intros Hrun. apply tokenize_inv in Hrun as (Hsep & -> & _).
  apply plain_split_join. now apply split_scan_plain.
Qed.

(** X12.  No token that [tokenize] returns holds the separator. *)
Theorem tokens_free_of_separator (self : HighlightedTextbox) (x : string)
  (tokens masked : list string) :
  tokenize self x = Ok (tokens, masked, tt) ->
  Forall (fun tok => ~ mentions tok (interpretation_separator self)) tokens.
Proof.
  intros Hrun. apply tokenize_inv in Hrun as (Hsep & -> & _).
  eapply plain_split_tokens_free; [exact Hsep|].
  now apply split_scan_plain.
Qed.

(** X13.  A string that does not hold the (non-empty) separator, the empty
    string included, is one token, and its one leave-one-out string is the
    empty string or, when a replacement is set, the replacement. *)
Theorem tokenize_without_separator (self : HighlightedTextbox) (x : string) :
  PyStr.is_empty (interpretation_separator self) = false ->
  ~ mentions x (interpretation_separator self) ->
  tokenize self x
  = Ok ([x],
        [match interpretation_replacement self with
         | None => EmptyString
         | Some r => r
         end],
        tt).
Proof.
  intros Hsep Hfree. rewrite tokenize_value by exact Hsep.
  assert (Htok : PyStr.split_scan (interpretation_separator self) 0 x = [x]).
  { eapply plain_split_unique; [now apply split_scan_plain|].
    apply plain_split_last. now apply free_no_start. }
  rewrite Htok. cbn. unfold masked_variant.
  destruct (interpretation_replacement self); reflexivity.
Qed.

(** X14.  Fed the tokens of [tokenize] and one score per token,
    [get_interpretation_scores] returns segments whose texts spell the input
    string followed by one separator. *)
Theorem scores_spell_text (self : HighlightedTextbox) (x : string)
  (tokens masked : list string) (scores : list num) :
  tokenize self x = Ok (tokens, masked, tt) ->
  List.length scores = List.length tokens ->
  pairs_text (get_interpretation_scores num_zero self scores tokens)
  = (x ++ interpretation_separator self)%string.
Proof.
  intros Hrun Hlen. apply tokenize_inv in Hrun as (Hsep & Htok & _).
  pose proof (split_scan_plain (interpretation_separator self) x Hsep)
    as Hsplit.
  rewrite <- Htok in Hsplit.
  unfold get_interpretation_scores. rewrite scores_loop. cbn [app].
  rewrite pairs_text_scores;
    [| exact Hlen | now apply plain_split_nonempty in Hsplit].
  now rewrite (plain_split_join Hsplit).
Qed.

(** X15.  [get_masked_inputs] returns one string per mask row when every
    row is empty or as long as the token list, an empty row giving the empty
    string, and raises [IndexError] as soon as a non-empty row has another
    length. *)
Theorem masked_inputs_row_lengths (self : HighlightedTextbox)
  (tokens : list string) (binary_mask_matrix : list (list Z)) :
  (Forall (fun row => row = [] \/ List.length row = List.length tokens)
     binary_mask_matrix ->
   exists masked_inputs : list string,
     get_masked_inputs self tokens binary_mask_matrix = Ok masked_inputs
     /\ List.length masked_inputs = List.length binary_mask_matrix
     /\ forall i : nat,
          nth_error binary_mask_matrix i = Some [] ->
          nth_error masked_inputs i = Some EmptyString)
  /\ (Exists (fun row => row <> [] /\ List.length row <> List.length tokens)
        binary_mask_matrix ->
      exists msg : string,
        get_masked_inputs self tokens binary_mask_matrix
        = Raise (IndexError msg)).
Proof.
  unfold get_masked_inputs. split.
  - intros Hall. rewrite masked_inputs_loop_ok by exact Hall.
    eexists; split; [reflexivity|]. cbn [app].
    split; [apply length_map|].
    intros i Hrow. rewrite nth_error_map, Hrow. cbn.
    unfold masked_input_of. cbn.
    now destruct (Numpy.array_of_str tokens).
  - intros Hex. now apply masked_inputs_loop_mismatch.
Qed.

(** X16.  A mask row without zeros keeps every token: for tokens that do
    not end in a NUL character the result is the tokens joined by the
    separator. *)
Theorem masked_inputs_keep_all (self : HighlightedTextbox)
  (tokens : list string) (row : list Z) :
  List.length row = List.length tokens ->
  Forall (fun z => z <> 0%Z) row ->
  Forall (fun tok => Numpy.rstrip_nul tok = tok) tokens ->
  get_masked_inputs self tokens [row]
  = Ok [PyStr.join (interpretation_separator self) tokens].
Proof.
  intros Hlen Hrow Htok. unfold get_masked_inputs.
  rewrite masked_inputs_loop_ok by (constructor; [now right | constructor]).
  cbn [app map]. unfold masked_input_of.
  rewrite array_of_str_id by exact Htok.
  now rewrite select_all.
Qed.

(** X17.  A mask row of zeros, as long as the token list, gives the empty
    string. *)
Theorem masked_inputs_keep_none (self : HighlightedTextbox)
  (tokens : list string) (row : list Z) :
  List.length row = List.length tokens ->
  Forall (fun z => z = 0%Z) row ->
  get_masked_inputs self tokens [row] = Ok [EmptyString].
Proof.
  intros Hlen Hrow. unfold get_masked_inputs.
  rewrite masked_inputs_loop_ok by (constructor; [now right | constructor]).
  cbn [app map]. unfold masked_input_of.
  now rewrite select_none.
Qed.

(** X18.  With no replacement set, [get_masked_inputs] on the tokens of
    [tokenize] and the matrix that zeroes one token per row returns the
    leave-one-out strings of [tokenize], provided no token ends in a NUL
    character. *)
Theorem masked_inputs_leave_one_out (self : HighlightedTextbox) (x : string)
  (tokens masked : list string) :
  tokenize self x = Ok (tokens, masked, tt) ->
  interpretation_replacement self = None ->
  Forall (fun tok => Numpy.rstrip_nul tok = tok) tokens ->
  get_masked_inputs self tokens (leave_one_out_matrix (List.length tokens))
  = Ok masked.
Proof.
  intros Hrun Hrep Htok. apply tokenize_inv in Hrun as (_ & _ & ->).
  unfold get_masked_inputs, leave_one_out_matrix.
  rewrite masked_inputs_loop_ok.
  - cbn [app]. f_equal. rewrite map_map. apply map_ext_in.
    intros i Hi. apply in_seq in Hi.
    unfold masked_input_of, masked_variant, leave_one_out_row.
    rewrite Hrep, array_of_str_id by exact Htok.
    pose proof (select_leave_one_out tokens (i := i) 0) as Hsel.
    cbn [Nat.add] in Hsel. now rewrite Hsel by lia.
  - apply Forall_forall. intros row Hrow.
    apply in_map_iff in Hrow as (i & <- & _). right.
    unfold leave_one_out_row. now rewrite length_map, length_seq.
Qed.

End InterpretationProperties.

(** ** The further properties at sample inputs *)

Example masked_inputs_sample :
  get_masked_inputs default_textbox abc_tokens
    [[1; 0; 1]; [0; 0; 0]; [1; 2; -1]]%Z
  = Ok ["a c"; EmptyString; "a b c"].
Proof. reflexivity. Qed.

Example masked_inputs_short_row :
  get_masked_inputs default_textbox abc_tokens [[1; 0; 1]; [0; 0]]%Z
  = Raise (IndexError
             "boolean index did not match indexed array along axis 0; size of axis is 3 but size of corresponding boolean axis is 2").
Proof. reflexivity. Qed.

Example masked_inputs_empty_row :
  get_masked_inputs default_textbox abc_tokens [[]; [1; 1; 0]%Z]
  = Ok [EmptyString; "a b"].
Proof. reflexivity. Qed.

Example masked_inputs_trailing_nul :
  get_masked_inputs default_textbox
    [String "a" (String Ascii.zero EmptyString); "b"] [[1; 1]]%Z
  = Ok ["a b"].
Proof. reflexivity. Qed.

Example tokenize_after_set_interpret_parameters :
  tokenize (set_interpret_parameters combining_textbox ", " (Some "_"))
    "a, b,, c"
  = Ok (["a"; "b,"; "c"], ["_, b,, c"; "a, _, c"; "a, b,, _"], tt).
Proof. reflexivity. Qed.

Example combine_keeps_leading_empty :
  postprocess Z.eqb combining_textbox
    (Some (structured "abcd" [span (LStr "A") 0 2; span (LStr "A") 2 4]))
  = Ok (Some [(EmptyString, LNone); ("abcd", LStr "A")]).
Proof. reflexivity. Qed.

Lemma combine_keeps_text_witness :
  exists out : list (segment Z),
    postprocess Z.eqb combining_textbox (Some (Segments sample_segments))
    = Ok (Some out)
    /\ segments_text out = segments_text sample_segments.
Proof.
  apply (@combine_keeps_text Z Z.eqb combining_textbox sample_segments);
    reflexivity.
Defined.

Lemma round_trip_with_combine_witness :
  reproduces_text Z.eqb combining_textbox "The cat sat" cat_spans.
Proof.
  apply (@round_trip_with_combine Z Z.eqb combining_textbox
           "The cat sat" cat_spans).
  - reflexivity.
  - reflexivity.
  - repeat constructor; cbn; lia.
  - repeat constructor; unfold non_overlapping; cbn; lia.
  - repeat constructor; unfold first_empty_on_tie; cbn; lia.
Defined.

Lemma combine_never_longer_witness :
  exists out : list (segment Z),
    postprocess Z.eqb combining_textbox (Some (Segments sample_segments))
    = Ok (Some out)
    /\ List.length out <= List.length sample_segments
    /\ (out = [] <-> sample_segments = []).
Proof.
  apply (@combine_never_longer Z Z.eqb combining_textbox sample_segments).
  reflexivity.
Defined.

Lemma combine_later_segments_nonempty_witness :
  exists out : list (segment Z),
    postprocess Z.eqb combining_textbox (Some (Segments sample_segments))
    = Ok (Some out)
    /\ forall (i : nat) (seg : segment Z),
         nth_error out (S i) = Some seg -> PyStr.is_empty (fst seg) = false.
Proof.
  apply (@combine_later_segments_nonempty Z Z.eqb combining_textbox
           sample_segments).
  reflexivity.
Defined.

Lemma combine_single_label_witness :
  postprocess Z.eqb combining_textbox
    (Some (Segments (("a", LStr "A") :: one_label_tail)))
  = Ok (Some [(PyStr.join (adjacent_separator combining_textbox)
                 ("a" :: map fst one_label_tail),
               LStr "A")]).
Proof.
  apply (@combine_single_label Z Z.eqb combining_textbox "a" (LStr "A")
           one_label_tail).
  - reflexivity.
  - repeat constructor.
Defined.

Lemma combine_keeps_first_witness :
  exists (suffix : string) (tail : list (segment Z)),
    postprocess Z.eqb combining_textbox
      (Some (Segments ((EmptyString, LNone) :: one_label_tail)))
    = Ok (Some (((EmptyString ++ suffix)%string, LNone) :: tail)).
Proof.
  apply (@combine_keeps_first Z Z.eqb combining_textbox EmptyString LNone
           one_label_tail).
  reflexivity.
Defined.

Lemma combine_labels_from_input_witness :
  exists out : list (segment Z),
    postprocess Z.eqb combining_textbox (Some (Segments sample_segments))
    = Ok (Some out)
    /\ Forall (fun seg => In (snd seg) (map snd sample_segments)) out.
Proof.
  apply (@combine_labels_from_input Z Z.eqb combining_textbox
           sample_segments).
  reflexivity.
Defined.

Lemma highlights_order_irrelevant_witness :
  postprocess Z.eqb default_textbox
    (Some (structured "The cat sat" two_spans))
  = postprocess Z.eqb default_textbox
      (Some (structured "The cat sat" two_spans_swapped)).
Proof.
  apply (@highlights_order_irrelevant Z Z.eqb default_textbox
           "The cat sat" two_spans two_spans_swapped).
  - apply perm_swap.
  - repeat constructor; cbn; intuition discriminate.
Defined.

Lemma highlight_segment_length_witness :
  exists (segs : list (segment Z)) (seg : segment Z),
    postprocess Z.eqb default_textbox
      (Some (structured "The cat sat" two_spans))
    = Ok (Some segs)
    /\ nth_error segs (2 * 1 + 1) = Some seg
    /\ snd seg = LStr "VERB"
    /\ Z.of_nat (String.length (fst seg)) = (11 - 8)%Z.
Proof.
  apply (@highlight_segment_length Z Z.eqb default_textbox "The cat sat"
           two_spans 1 (span (LStr "VERB") 8 11)).
  - reflexivity.
  - reflexivity.
  - unfold in_bounds; cbn; lia.
Defined.

Lemma tokenize_join_round_trip_witness :
  PyStr.join (interpretation_separator default_textbox) abc_tokens = "a b c".
Proof.
  apply (@tokenize_join_round_trip default_textbox "a b c"
           abc_tokens abc_masked).
  reflexivity.
Defined.

Lemma tokens_free_of_separator_witness :
  Forall (fun tok => ~ mentions tok (interpretation_separator default_textbox))
    abc_tokens.
Proof.
  apply (@tokens_free_of_separator default_textbox "a b c"
           abc_tokens abc_masked).
  reflexivity.
Defined.

Lemma not_mentions_space_in_abc : ~ mentions "abc" " ".
Proof.
  intros (pre & post & H).
  destruct pre as [|c1 [|c2 [|c3 [|c4 pre]]]]; cbn in H; discriminate H.
Qed.

Lemma tokenize_without_separator_witness :
  tokenize replacing_textbox "abc" = Ok (["abc"], ["X"], tt).
Proof.
  apply (@tokenize_without_separator replacing_textbox "abc").
  - reflexivity.
  - exact not_mentions_space_in_abc.
Defined.

Lemma scores_spell_text_witness :
  pairs_text
    (get_interpretation_scores 0%Z default_textbox [3%Z; 1%Z; 2%Z] abc_tokens)
  = "a b c ".
Proof.
  apply (@scores_spell_text Z 0%Z default_textbox "a b c"
           abc_tokens abc_masked [3%Z; 1%Z; 2%Z]).
  - reflexivity.
  - reflexivity.
Defined.

Lemma masked_inputs_keep_all_witness :
  get_masked_inputs default_textbox abc_tokens [[1; 2; -1]%Z]
  = Ok [PyStr.join (interpretation_separator default_textbox) abc_tokens].
Proof.
  apply (@masked_inputs_keep_all default_textbox abc_tokens [1; 2; -1]%Z).
  - reflexivity.
  - repeat constructor; lia.
  - repeat constructor.
Defined.

Lemma masked_inputs_keep_none_witness :
  get_masked_inputs default_textbox abc_tokens [[0; 0; 0]%Z]
  = Ok [EmptyString].
Proof.
  apply (@masked_inputs_keep_none default_textbox abc_tokens [0; 0; 0]%Z).
  - reflexivity.
  - repeat constructor.
Defined.

Lemma masked_inputs_leave_one_out_witness :
  get_masked_inputs default_textbox abc_tokens
    (leave_one_out_matrix (List.length abc_tokens))
  = Ok abc_masked.
Proof.
  apply (@masked_inputs_leave_one_out default_textbox "a b c"
           abc_tokens abc_masked).
  - reflexivity.
  - reflexivity.
  - repeat constructor.
Defined.

(** ** Runs of one label *)

Section RunProperties.

Variable num : Type.
Variable num_eqb : num -> num -> bool.

(** C10, as amended.  With [combine_adjacent=True], no segment of the
    output has a label that compares equal to the label of the segment
    before it (so the two labels differ whenever [==] is reflexive on
    numbers).  The first segment and the run of segments after it whose
    labels compare equal to its label make one output segment, their texts
    joined by [adjacent_separator]: it is the whole output when the run
    reaches the end, and it is followed by the output for the rest when the
    run ends at a segment of another label and non-empty text.  A segment
    of another label and empty text that ends the run is dropped, joined to
    nothing. *)
Theorem combine_adjacent_joins_runs (self : HighlightedTextbox)
  (y : list (segment num)) :
  combine_adjacent self = true ->
  exists out : list (segment num),
    postprocess num_eqb self (Some (Segments y)) = Ok (Some out)
    /\ (forall (i : nat) (a b : segment num),
          nth_error out i = Some a ->
          nth_error out (S i) = Some b ->
          label_eqb num_eqb (snd b) (snd a) = false
          /\ ((forall x : num, num_eqb x x = true) -> snd b <> snd a))
    /\ (forall (text : string) (category : label num)
               (run : list (segment num)),
          Forall (fun seg => label_eqb num_eqb (snd seg) category = true)
            run ->
          (y = (text, category) :: run ->
           out = [(PyStr.join (adjacent_separator self) (text :: map fst run),
                   category)])
          /\ (forall (t : string) (c : label num)
                     (rest : list (segment num)),
                y = (text, category) :: run ++ (t, c) :: rest ->
                label_eqb num_eqb c category = false ->
                (PyStr.is_empty t = false ->
                 exists out' : list (segment num),
                   postprocess num_eqb self (Some (Segments ((t, c) :: rest)))
                   = Ok (Some out')
                   /\ out
                      = (PyStr.join (adjacent_separator self)
                           (text :: map fst run), category) :: out')
                /\ (PyStr.is_empty t = true ->
                    postprocess num_eqb self
                      (Some (Segments ((text, category) :: run ++ rest)))
                    = Ok (Some out)))).
Proof.
  intros Hflag. exists (combine_pass num_eqb (adjacent_separator self) y).
  unfold postprocess; cbn [bind]. rewrite Hflag.
  split; [reflexivity|]. split.
  - intros i a b Ha Hb.
    pose proof (combine_pass_neighbours _ _ _ _ Ha Hb) as Hne.
    split; [exact Hne|].
    intros Hrefl Heq. rewrite Heq in Hne.
    destruct (snd a) as [|s|x]; cbn in Hne;
      [discriminate | now rewrite String.eqb_refl in Hne
      | now rewrite Hrefl in Hne].
  - intros text category run Hrun. split.
    + intros ->. rewrite combine_pass_cons.
      now apply combine_from_one_label.
    + intros t c rest -> Hc. rewrite !combine_pass_cons.
      rewrite !combine_from_run by exact Hrun.
      cbn [combine_from fst snd]. rewrite Hc. split.
      * intros Ht. rewrite Ht. eexists; split; reflexivity.
      * intros Ht. now rewrite Ht.
Qed.

End RunProperties.

(** C10, as stated, fails: in [dropped_pair_segments] the empty segment
    labelled ["A"] stands next to another segment labelled ["A"], yet it is
    dropped and the output holds ["a"], not the two joined by the
    separator. *)
Lemma dropped_segment_is_not_joined :
  combine_adjacent dash_textbox = true
  /\ postprocess Z.eqb dash_textbox (Some (Segments dropped_pair_segments))
     = Ok (Some [("x", LStr "B"); ("a", LStr "A")])
  /\ ~ joins_adjacent_pairs Z.eqb dash_textbox dropped_pair_segments.
Proof.
  split; [reflexivity|]. split; [reflexivity|].
  intros Hjoin.
  specialize (Hjoin [("x", LStr "B")] [] EmptyString "a" (LStr "A") (LStr "A")
                eq_refl eq_refl).
  vm_compute in Hjoin. discriminate Hjoin.
Qed.

Lemma combine_adjacent_joins_runs_witness :
  exists out : list (segment Z),
    postprocess Z.eqb dash_textbox (Some (Segments sample_segments))
    = Ok (Some out)
    /\ out = [("a-b", LStr "A"); ("c", LStr "B"); ("d-e", LNone)].
Proof.
  destruct (@combine_adjacent_joins_runs Z Z.eqb dash_textbox sample_segments
              eq_refl) as (out & Hrun & _ & Hruns).
  exists out. split; [exact Hrun|].
  vm_compute in Hrun. now injection Hrun as <-.
Defined.

(** ** Highlights that may lack a key: properties *)

Section HighlightDictProperties.

Variable num : Type.
Variable num_eqb : num -> num -> bool.

Lemma insert_by_map (A B : Type) (f : A -> B) (key : A -> Z) (key' : B -> Z)
  (x : A) (l : list A) :
  (forall a, key' (f a) = key a) ->
  PyList.insert_by key' (f x) (map f l) = map f (PyList.insert_by key x l).
Proof.
  intros Hkey. induction l as [|y l IH]; simpl; [reflexivity|].
  rewrite !Hkey. destruct (key x <=? key y)%Z; simpl; [reflexivity|].
  now rewrite IH.
Qed.

Lemma sorted_map (A B : Type) (f : A -> B) (key : A -> Z) (key' : B -> Z)
  (l : list A) :
  (forall a, key' (f a) = key a) ->
  PyList.sorted key' (map f l) = map f (PyList.sorted key l).
Proof.
  intros Hkey. induction l as [|x l IH]; simpl; [reflexivity|].
  rewrite IH. now apply insert_by_map.
Qed.

Lemma keyed_loop (hs : list (entity num))
  (keyed : list (Z * highlight_dict num)) :
  for_each (map (@dict_of_entity num) hs)
    (fun x keyed => k <- getitem_start x ;; Ok (keyed ++ [(k, x)]))
    keyed
  = Ok (keyed ++ map (fun e => (start e, dict_of_entity e)) hs).
Proof.
  revert keyed; induction hs as [|h hs IH]; intros keyed; simpl.
  - now rewrite app_nil_r.
  - rewrite IH, <- app_assoc. reflexivity.
Qed.

(** Sorting the dictionaries of spans sorts the spans. *)
Lemma sorted_by_start_entities (hs : list (entity num)) :
  sorted_by_start (map (@dict_of_entity num) hs)
  = Ok (map (@dict_of_entity num) (PyList.sorted start hs)).
Proof.
  unfold sorted_by_start. rewrite keyed_loop. cbn [bind app].
  rewrite (sorted_map (fun e => (start e, dict_of_entity e)) start fst)
    by reflexivity.
  now rewrite map_map.
Qed.

Lemma expand_loop_entities (text : string) (es : list (entity num))
  (st : list (segment num) * Z) :
  for_each (map (@dict_of_entity num) es) (expand_step_dict text) st
  = Ok (fold_left (expand_step text) es st).
Proof.
  revert st; induction es as [|e es IH]; intros [list_format index]; simpl.
  - reflexivity.
  - apply IH.
Qed.

(** On spans that have both keys the two accounts of [postprocess] agree. *)
Lemma postprocess_dict_of_entities (self : HighlightedTextbox) (text : string)
  (hs : list (entity num)) :
  postprocess_dict num_eqb self (Some text)
    (Some (map (@dict_of_entity num) hs))
  = postprocess num_eqb self (Some (structured text hs)).
Proof.
  unfold postprocess_dict, postprocess, structured, expand_dict.
  cbn [except_KeyError bind getitem_text getitem_highlights dict_text
       dict_highlights].
  rewrite length_map.
  destruct hs as [|h hs]; [reflexivity|].
  cbn [List.length Nat.eqb].
  rewrite sorted_by_start_entities. cbn [bind].
  rewrite expand_loop_entities. cbn [bind].
  destruct (fold_left _ _ _) as [list_format index]. reflexivity.
Qed.

Lemma dict_of_entity_of_dict (h : highlight_dict num) :
  has_start_and_end h -> dict_of_entity (entity_of_dict h) = h.
Proof.
  destruct h as [c [s|] [e|]]; intros [Hs He]; cbn in Hs, He;
    try congruence.
  reflexivity.
Qed.

Lemma dicts_of_entities (highlights : list (highlight_dict num)) :
  Forall (@has_start_and_end num) highlights ->
  map (@dict_of_entity num) (map (@entity_of_dict num) highlights)
  = highlights.
Proof.
  induction 1 as [|h highlights Hh _ IH]; simpl; [reflexivity|].
  now rewrite dict_of_entity_of_dict, IH.
Qed.

(** C9, as amended.  On a dictionary that has both keys and whose
    highlights each have ["start"] and ["end"], [postprocess] returns a
    segment list and raises nothing, whatever integers the spans carry:
    overlapping, unordered, negative or out-of-range spans included. *)
Theorem postprocess_total_with_start_and_end (self : HighlightedTextbox)
  (text : string) (highlights : list (highlight_dict num)) :
  Forall (@has_start_and_end num) highlights ->
  exists segs : list (segment num),
    postprocess_dict num_eqb self (Some text) (Some highlights)
    = Ok (Some segs).
Proof.
  intros Hall. rewrite <- (dicts_of_entities Hall).
  rewrite postprocess_dict_of_entities.
  apply postprocess_total_on_structured.
Qed.

End HighlightDictProperties.

(** C9, as stated, fails: the dictionary has both keys, but its one
    highlight has no ["start"], and the look-up in the sort key raises. *)
Lemma postprocess_raises_on_missing_start :
  postprocess_dict Z.eqb default_textbox (Some "abcd")
    (Some [no_start_highlight])
  = Raise (KeyError "start")
  /\ ~ (exists segs : list (segment Z),
          postprocess_dict Z.eqb default_textbox (Some "abcd")
            (Some [no_start_highlight])
          = Ok (Some segs)).
Proof.
  split; [reflexivity|].
  intros (segs & Hrun). discriminate Hrun.
Qed.

Example postprocess_raises_on_missing_end :
  postprocess_dict Z.eqb default_textbox (Some "abcd")
    (Some [{| get_highlight_type := LStr "A";
              lookup_start := Some 0%Z;
              lookup_end := None |}])
  = Raise (KeyError "end").
Proof. reflexivity. Qed.

Example postprocess_dict_missing_text :
  postprocess_dict Z.eqb default_textbox None (Some [no_start_highlight])
  = Raise (ValueError expected_keys_message).
Proof. reflexivity. Qed.

Lemma postprocess_total_with_start_and_end_witness :
  exists segs : list (segment Z),
    postprocess_dict Z.eqb combining_textbox (Some "abcd")
      (Some overlapping_highlights)
    = Ok (Some segs).
Proof.
  apply (@postprocess_total_with_start_and_end Z Z.eqb combining_textbox
           "abcd" overlapping_highlights).
  repeat constructor; discriminate.
Defined.
